(** * llm-text-processor: a shallow embedding of the provider layer, the
      in-memory result store, the reporting engine and the [/process] handler.

    Python strings are modelled by [string], one [ascii] per code point
    (code points 0..255).  Python [int] is [Z].  Python [float] values are
    modelled by the rational they denote ([Q]); no arithmetic on them
    rounds, except the explicit calls to [round].  A Python [dict] is an
    association list in insertion order, without duplicate keys: assignment
    to a key that is present replaces the value in place, assignment to a
    new key appends. *)

From Stdlib Require Import ZArith QArith Qabs List String Ascii Bool Lia.
Import ListNotations.

Open Scope string_scope.
Open Scope Z_scope.

Set Implicit Arguments.
Set Warnings "-register-all".

(* ================================================================== *)
(** ** Python values, exceptions and dictionaries *)

Module Py.

(** JSON-like Python values: what [json.loads] can return and what the
    service builds with dict and list displays. *)
Inductive value : Type :=
| VNone
| VBool (b : bool)
| VInt (z : Z)
| VFloat (q : Q)
| VStr (s : string)
| VList (l : list value)
| VDict (d : list (string * value)).

(** The exceptions the modelled code can raise or let through. *)
Inductive exn : Type :=
| ValueError (msg : string)
| OverflowError
| ZeroDivisionError
| IndexError
| KeyError
| AttributeError
| TypeError
| BackendError (msg : string)
| HTTPException (status_code : Z) (detail : string).

(** A call either returns or raises. *)
Inductive result (A : Type) : Type :=
| Ok (a : A)
| Err (e : exn).
Arguments Ok {A} a.
Arguments Err {A} e.

Definition bind {A B : Type} (m : result A) (f : A -> result B) : result B :=
  match m with
  | Ok a => f a
  | Err e => Err e
  end.

Declare Scope py_scope.
Delimit Scope py_scope with py.
Notation "x <- m ;; k" := (bind m (fun x => k))
  (at level 100, m at next level, right associativity) : py_scope.
Local Open Scope py_scope.

Definition is_ok {A : Type} (m : result A) : bool :=
  match m with Ok _ => true | Err _ => false end.

(** Dictionaries over a key type with a boolean key equality. *)
Section Dict.
Variables (K V : Type) (keq : K -> K -> bool).

Definition dict : Type := list (K * V).

(** [d.get(k)] *)
Fixpoint dict_get (k : K) (d : dict) : option V :=
  match d with
  | [] => None
  | (k', v) :: d' => if keq k k' then Some v else dict_get k d'
  end.

(** [k in d] *)
Definition dict_mem (k : K) (d : dict) : bool :=
  match dict_get k d with Some _ => true | None => false end.

(** [d[k] = v]: the first key object and its position are kept when the
    key is present. *)
Fixpoint dict_set (k : K) (v : V) (d : dict) : dict :=
  match d with
  | [] => [(k, v)]
  | (k', v') :: d' =>
      if keq k k' then (k', v) :: d' else (k', v') :: dict_set k v d'
  end.

(** [d.values()] *)
Definition dict_values (d : dict) : list V := map snd d.

(** [d.get(k, default)] *)
Definition dict_get_default (k : K) (default : V) (d : dict) : V :=
  match dict_get k d with Some v => v | None => default end.

(** [d[k]] *)
Definition dict_getitem (k : K) (d : dict) : result V :=
  match dict_get k d with Some v => Ok v | None => Err KeyError end.
End Dict.

(** A [for] loop whose body may raise: [s] is the loop's state. *)
Fixpoint for_each {A S : Type} (body : S -> A -> result S) (l : list A) (s : S)
    : result S :=
  match l with
  | [] => Ok s
  | a :: l' => s' <- body s a ;; for_each body l' s'
  end.

(** The values Python can hash, hence use as dict keys. *)
Inductive hashable : Type :=
| HNone
| HBool (b : bool)
| HInt (z : Z)
| HFloat (q : Q)
| HStr (s : string).

(** [hash(v)]: lists and dicts are unhashable. *)
Definition hash_key (v : value) : result hashable :=
  match v with
  | VNone => Ok HNone
  | VBool b => Ok (HBool b)
  | VInt z => Ok (HInt z)
  | VFloat q => Ok (HFloat q)
  | VStr s => Ok (HStr s)
  | VList _ | VDict _ => Err TypeError
  end.

(** The number a key denotes, if it is one: [True == 1 == 1.0]. *)
Definition num_of (h : hashable) : option Q :=
  match h with
  | HBool b => Some (inject_Z (Z.b2z b))
  | HInt z => Some (inject_Z z)
  | HFloat q => Some q
  | HNone | HStr _ => None
  end.

(** [a == b] on keys. *)
Definition key_eqb (a b : hashable) : bool :=
  match num_of a, num_of b with
  | Some x, Some y => Qeq_bool x y
  | None, None =>
      match a, b with
      | HNone, HNone => true
      | HStr s, HStr t => String.eqb s t
      | _, _ => false
      end
  | _, _ => false
  end.

(** [v.get(k, default)]: only a dict has the method. *)
Definition py_get (v : value) (k : string) (default : value) : result value :=
  match v with
  | VDict d => Ok (dict_get_default String.eqb k default d)
  | _ => Err AttributeError
  end.

(** [a / b] on ints, as the exact quotient: Python returns the double
    nearest to it, so a value computed from the quotient is the code's
    value only up to that rounding. *)
Definition truediv (a b : Z) : result Q :=
  if b =? 0 then Err ZeroDivisionError
  else Ok (inject_Z a / inject_Z b)%Q.

(** [datetime] values: microseconds since 0001-01-01T00:00:00, the value
    of [datetime.min]; [datetime.max] is the last microsecond of
    9999-12-31, day 3652059. *)
Definition datetime : Type := Z.

Definition datetime_end : Z := 3652059 * 86400 * 1000000.

Definition datetime_valid (t : datetime) : bool :=
  (0 <=? t) && (t <? datetime_end).

(** [timedelta(hours=h)], in microseconds: the day count must have
    magnitude at most 999999999. *)
Definition timedelta_hours (h : Z) : result Z :=
  if (h / 24 <? -999999999) || (999999999 <? h / 24) then Err OverflowError
  else Ok (h * 3600 * 1000000).

(** [t - delta] on a datetime: the result must be a datetime. *)
Definition datetime_sub (t : datetime) (delta : Z) : result datetime :=
  if datetime_valid (t - delta) then Ok (t - delta) else Err OverflowError.

(** Whitespace as [str.split()] and [str.strip()] see it, for code points
    below 256. *)
Definition isspace (c : ascii) : bool :=
  let n := N_of_ascii c in
  ((9 <=? n) && (n <=? 13) || (28 <=? n) && (n <=? 32)
   || (n =? 133) || (n =? 160))%N.

Fixpoint rev_string (s acc : string) : string :=
  match s with
  | EmptyString => acc
  | String c s' => rev_string s' (String c acc)
  end.

(** [s.split()] with no argument: the maximal runs of non-whitespace.
    [cur] is the current run, reversed. *)
Fixpoint split_from (s cur : string) : list string :=
  match s with
  | EmptyString =>
      match cur with
      | EmptyString => []
      | _ => [rev_string cur ""]
      end
  | String c s' =>
      if isspace c then
        match cur with
        | EmptyString => split_from s' ""
        | _ => rev_string cur "" :: split_from s' ""
        end
      else split_from s' (String c cur)
  end.

Definition split (s : string) : list string := split_from s "".

Fixpoint lstrip (s : string) : string :=
  match s with
  | EmptyString => EmptyString
  | String c s' => if isspace c then lstrip s' else s
  end.

(** [s.strip()] *)
Definition strip (s : string) : string :=
  rev_string (lstrip (rev_string (lstrip s) "")) "".

(** [len(s)] as a Python int. *)
Definition len_str (s : string) : Z := Z.of_nat (String.length s).

(** Round to the nearest integer, ties to the even one. *)
Definition round_half_even (q : Q) : Z :=
  let d := Zpos (Qden q) in
  let f := Qnum q / d in
  let r := Qnum q mod d in
  match 2 * r ?= d with
  | Lt => f
  | Gt => f + 1
  | Eq => if Z.even f then f else f + 1
  end.

(** [round(x, ndigits)] on a float: the nearest multiple of [10^-ndigits],
    ties to even. *)
Definition round_float (q : Q) (ndigits : positive) : Q :=
  let scale := Pos.pow 10 ndigits in
  Qmake (round_half_even (q * inject_Z (Zpos scale))) scale.

(** [round(v, ndigits)] with [ndigits > 0]: an int is returned as it is. *)
Definition py_round (v : value) (ndigits : positive) : result value :=
  match v with
  | VInt z => Ok (VInt z)
  | VBool b => Ok (VInt (Z.b2z b))
  | VFloat q => Ok (VFloat (round_float q ndigits))
  | _ => Err TypeError
  end.

End Py.

Import Py.
Open Scope py_scope.

(* ================================================================== *)
(** ** storage.py *)

Module Storage.

Record record : Type := mkRecord {
  id : string;
  original_text : string;
  processed_result : value;
  task_type : string;
  created_at : datetime
}.

(** [InMemoryStorage.results]: a dict from id to record. *)
Definition store : Type := dict string record.

(** [InMemoryStorage.__init__] *)
Definition init : store := [].

(** [save_result].  [result_id] is the value of [str(uuid.uuid4())] and
    [timestamp] the value of [datetime.now()] read by this call. *)
Definition save_result (result_id : string) (timestamp : datetime)
    (st : store) (original_text : string) (processed_result : value)
    (task_type : string) : record * store :=
  let result := mkRecord result_id original_text processed_result task_type
                  timestamp in
  (result, dict_set String.eqb result_id result st).

(** [get_all_results] *)
Definition get_all_results (st : store) : list record := dict_values st.

(** [get_result_by_id] *)
Definition get_result_by_id (st : store) (result_id : string) : option record :=
  dict_get String.eqb result_id st.

End Storage.

(* ================================================================== *)
(** ** llm_service.py *)

Module LLMService.

(** [self.provider] once [__init__] has returned: it raises [ValueError]
    on any other name, and every method tests ["openai"] and takes the
    Hugging Face branch otherwise. *)
Inductive provider : Type := OpenAI | HuggingFace.

(** One chat message, [{"role": ..., "content": ...}]. *)
Record message : Type := mkMessage { role : string; content : string }.

(** One item of the NER pipeline's output; the keys the code does not read
    are left out. *)
Record ner_item : Type := mkNer { entity : string; word : string; score : Q }.

(** One item of the sentiment pipeline's output. *)
Record sentiment_item : Type := mkSent { label : string; sent_score : Q }.

(** The calls the service makes to its backend. *)
Inductive request : Type :=
| ChatCompletionsCreate (model : string) (messages : list message)
    (max_tokens : option Z) (json_object : bool)
| Summarizer (text : string) (max_length min_length : Z) (do_sample : bool)
| NerPipeline (text : string)
| SentimentAnalyzer (text : string).

(** What a call returns: for the chat API the string
    [response.choices[0].message.content]; for the summarizer the
    [summary_text] of each output item; for the two other pipelines their
    list of items. *)
Definition response (r : request) : Type :=
  match r with
  | ChatCompletionsCreate _ _ _ _ => string
  | Summarizer _ _ _ _ => list string
  | NerPipeline _ => list ner_item
  | SentimentAnalyzer _ => list sentiment_item
  end.

(** A method body: it returns, raises, or calls the backend and goes on
    with the answer. *)
Inductive prog (A : Type) : Type :=
| Ret (a : A)
| Raise (e : exn)
| Call (r : request) (k : response r -> prog A).
Arguments Ret {A} a.
Arguments Raise {A} e.
Arguments Call {A} r k.

(** A backend answers each call or raises. *)
Definition backend : Type := forall r : request, result (response r).

Fixpoint run {A : Type} (b : backend) (p : prog A) : result A :=
  match p with
  | Ret a => Ok a
  | Raise e => Err e
  | Call r k =>
      match b r with
      | Ok x => run b (k x)
      | Err e => Err e
      end
  end.

(** The backend calls a method body makes against [b], in order. *)
Fixpoint calls {A : Type} (b : backend) (p : prog A) : list request :=
  match p with
  | Ret _ | Raise _ => []
  | Call r k =>
      r :: match b r with
           | Ok x => calls b (k x)
           | Err _ => []
           end
  end.

Definition nl : string := String (ascii_of_nat 10) EmptyString.

Definition note_too_short : string :=
  "Text too short for meaningful summarization".

(** [summarize_text] *)
Definition summarize_text (p : provider) (text : string) : prog value :=
  if Z.of_nat (List.length (split text)) <? 30 then
    Ret (VDict [("summary", VStr text); ("note", VStr note_too_short)])
  else
    match p with
    | OpenAI =>
        Call (ChatCompletionsCreate "gpt-3.5-turbo"
                [mkMessage "system"
                   "You are a helpful assistant that summarizes text.";
                 mkMessage "user"
                   ("Please summarize the following text in a concise paragraph:"
                    ++ nl ++ nl ++ text)]
                (Some 150) false)
             (fun content => Ret (VDict [("summary", VStr (strip content))]))
    | HuggingFace =>
        Call (Summarizer text 130 30 false)
             (fun summary =>
                match summary with
                | [] => Raise IndexError
                | summary_text :: _ =>
                    Ret (VDict [("summary", VStr summary_text)])
                end)
    end.

(** The dict appended for one NER item. *)
Definition mention (e : ner_item) : value :=
  VDict [("word", VStr (word e)); ("score", VFloat (round_float (score e) 3))].

(** One turn of the grouping loop of [extract_entities]. *)
Definition group_step (grouped : dict string (list value)) (e : ner_item)
    : dict string (list value) :=
  let entity_type := entity e in
  let grouped :=
    if dict_mem String.eqb entity_type grouped then grouped
    else dict_set String.eqb entity_type [] grouped in
  dict_set String.eqb entity_type
    ((dict_get_default String.eqb entity_type [] grouped ++ [mention e])%list)
    grouped.

Definition group_entities (entities : list ner_item)
    : dict string (list value) :=
  fold_left group_step entities [].

Definition grouped_value (grouped : dict string (list value)) : value :=
  VDict (map (fun kv => (fst kv, VList (snd kv))) grouped).

(** The chat call of [extract_entities]. *)
Definition entities_request (text : string) : request :=
  ChatCompletionsCreate "gpt-3.5-turbo"
    [mkMessage "system"
       "Extract named entities from the text and categorize them by type (PERSON, ORGANIZATION, LOCATION, etc.). Return the result as a JSON object.";
     mkMessage "user" text]
    None true.

(** The chat call of [analyze_sentiment]. *)
Definition sentiment_request (text : string) : request :=
  ChatCompletionsCreate "gpt-3.5-turbo"
    [mkMessage "system"
       "Analyze the sentiment of the text and return only a JSON object with 'sentiment' (POSITIVE, NEGATIVE, or NEUTRAL) and 'score' (a number between 0 and 1 indicating confidence).";
     mkMessage "user" text]
    None true.

Section WithJson.

(** [json.loads]; [None] stands for [json.JSONDecodeError]. *)
Variable json_loads : string -> option value.

(** [extract_entities] *)
Definition extract_entities (p : provider) (text : string) : prog value :=
  match p with
  | OpenAI =>
      Call (entities_request text)
           (fun content =>
              match json_loads content with
              | Some result => Ret (VDict [("entities", result)])
              | None =>
                  Ret (VDict [("entities", VDict []);
                              ("error",
                               VStr "Failed to parse entity extraction result")])
              end)
  | HuggingFace =>
      Call (NerPipeline text)
           (fun entities =>
              Ret (VDict [("entities",
                           grouped_value (group_entities entities))]))
  end.

Definition sentiment_fallback : value :=
  VDict [("sentiment", VStr "NEUTRAL"); ("score", VFloat (1 # 2));
         ("error", VStr "Failed to parse sentiment analysis result")].

(** [analyze_sentiment] *)
Definition analyze_sentiment (p : provider) (text : string) : prog value :=
  match p with
  | OpenAI =>
      Call (sentiment_request text)
           (fun content =>
              match json_loads content with
              | Some result => Ret result
              | None => Ret sentiment_fallback
              end)
  | HuggingFace =>
      Call (SentimentAnalyzer text)
           (fun out =>
              match out with
              | [] => Raise IndexError
              | sentiment :: _ =>
                  Ret (VDict [("sentiment", VStr (label sentiment));
                              ("score",
                               VFloat (round_float (sent_score sentiment) 3))])
              end)
  end.

(** [process_text] *)
Definition process_text (p : provider) (text task : string) : prog value :=
  if (task =? "summarize")%string then summarize_text p text
  else if (task =? "entities")%string then extract_entities p text
  else if (task =? "sentiment")%string then analyze_sentiment p text
  else Raise (ValueError ("Unsupported task: " ++ task)).

End WithJson.

End LLMService.

(* ================================================================== *)
(** ** business_logic.py *)

Module BusinessLogic.
Import Storage.

(** The counting idiom of both report loops:
[[
    if k not in d: d[k] = 0
    d[k] += 1
]] *)
Definition count_step (K : Type) (keq : K -> K -> bool) (d : dict K Z) (k : K)
    : result (dict K Z) :=
  let d := if dict_mem keq k d then d else dict_set keq k 0 d in
  n <- dict_getitem keq k d ;;
  Ok (dict_set keq k (n + 1) d).

Definition int_dict (d : dict string Z) : value :=
  VDict (map (fun kv => (fst kv, VInt (snd kv))) d).

Fixpoint sum_Z (l : list Z) : Z :=
  match l with
  | [] => 0
  | x :: l' => x + sum_Z l'
  end.

(** [get_processing_stats] *)
Definition get_processing_stats (st : store) : result value :=
  let results := get_all_results st in
  task_counts <-
    for_each (fun d r => count_step String.eqb d (task_type r)) results [] ;;
  avg_text_length <-
    match results with
    | _ :: _ =>
        q <- truediv (sum_Z (map (fun r => len_str (original_text r)) results))
               (Z.of_nat (List.length results)) ;;
        Ok (VFloat q)
    | [] => Ok (VInt 0)
    end ;;
  average <- py_round avg_text_length 2 ;;
  Ok (VDict [("total_processed", VInt (Z.of_nat (List.length results)));
             ("by_task_type", int_dict task_counts);
             ("average_text_length", average)]).

(** [get_recent_activity].  [now] is the value of [datetime.now()] read by
    the call; [created_at] is a [datetime] in every record, so the
    [isinstance] test of the comprehension is true. *)
Definition get_recent_activity (now : datetime) (st : store) (hours : Z)
    : result (list record) :=
  let results := get_all_results st in
  delta <- timedelta_hours hours ;;
  cutoff_time <- datetime_sub now delta ;;
  Ok (filter (fun r => cutoff_time <? created_at r) results).

(** The key one sentiment record is counted under. *)
Definition sentiment_key (r : record) : result hashable :=
  sentiment <- py_get (processed_result r) "sentiment" (VStr "UNKNOWN") ;;
  hash_key sentiment.

(** [get_sentiment_distribution] *)
Definition get_sentiment_distribution (st : store)
    : result (dict hashable Z) :=
  let results := get_all_results st in
  let sentiment_results :=
    filter (fun r => (task_type r =? "sentiment")%string) results in
  for_each
    (fun distribution r =>
       sentiment <- sentiment_key r ;;
       count_step key_eqb distribution sentiment)
    sentiment_results [].

End BusinessLogic.

(* ================================================================== *)
(** ** models.py and main.py *)

Module Main.
Import Storage.

(** [TextRequest]: [text] is a [str] with [min_length=1].  [None] stands
    for the validation error. *)
Definition TextRequest (text : string) : option string :=
  if 1 <=? len_str text then Some text else None.

(** Handler code runs against the module-level [storage]: the store is
    threaded through, and an exception leaves with the store as it is
    where it was raised. *)
Definition M (A : Type) : Type := store -> result A * store.

Definition ret {A : Type} (a : A) : M A := fun s => (Ok a, s).

Definition lift {A : Type} (r : result A) : M A := fun s => (r, s).

Definition bindM {A B : Type} (m : M A) (f : A -> M B) : M B :=
  fun s =>
    match m s with
    | (Ok a, s') => f a s'
    | (Err e, s') => (Err e, s')
    end.

(** [try: m except Exception as e: handler e] *)
Definition try_except {A : Type} (m : M A) (handler : exn -> M A) : M A :=
  fun s =>
    match m s with
    | (Ok a, s') => (Ok a, s')
    | (Err e, s') => handler e s'
    end.

Declare Scope handler_scope.
Delimit Scope handler_scope with handler.
Notation "x <~ m ;; k" := (bindM m (fun x => k))
  (at level 100, m at next level, right associativity) : handler_scope.

(** [storage.save_result(...)] *)
Definition storage_save_result (uuid : string) (now : datetime)
    (original_text : string) (processed_result : value) (task_type : string)
    : M record :=
  fun s =>
    let (r, s') :=
      save_result uuid now s original_text processed_result task_type in
    (Ok r, s').

Definition valid_tasks : list string := ["summarize"; "entities"; "sentiment"].

(** [task in valid_tasks] *)
Definition task_in (task : string) (l : list string) : bool :=
  existsb (String.eqb task) l.

(** What the client of [POST /process] gets: the saved record, the 422
    answer to a validation error, or the status and detail of an
    [HTTPException]. *)
Inductive http_response : Type :=
| Http200 (body : record)
| HttpValidationError
| HttpError (status_code : Z) (detail : string).

Section Service.

(** The module-level [llm_service]: its provider, the backend it talks
    to, and [json.loads]. *)
Variable provider : LLMService.provider.
Variable backend : LLMService.backend.
Variable json_loads : string -> option value.

(** [str(e)] on an exception, as the [except] clause of the handler
    formats it. *)
Variable str_exn : exn -> string.

(** [llm_service.process_text(text, task)] as the handler sees it. *)
Definition llm_process_text (text task : string) : result value :=
  LLMService.run backend (LLMService.process_text json_loads provider text task).

(** The [/process] handler.  [uuid] and [now] are what [uuid.uuid4()] and
    [datetime.now()] give if [save_result] is reached. *)
Definition process_text (uuid : string) (now : datetime)
    (request_text task : string) : M record :=
  try_except
    (_ <~ (if negb (task_in task valid_tasks) then
             lift (Err (HTTPException 400
                          ("Invalid task: " ++ task ++
                           ". Must be one of: summarize, entities, sentiment")))
           else ret tt) ;;
     processed_result <~ lift (llm_process_text request_text task) ;;
     saved_result <~
       storage_save_result uuid now request_text processed_result task ;;
     ret saved_result)%handler
    (fun e =>
       lift (Err (HTTPException 500 ("Error processing text: " ++ str_exn e)))).

(** [POST /process]: the body is validated against [TextRequest] before
    the handler is called; a validation error is answered with 422 and
    an [HTTPException] with its status code and detail.  A record the
    handler returns is encoded as JSON for the answer; every [value]
    encodes (the floats NaN and Infinity, which [value] leaves out, do
    not). *)
Definition post_process (uuid : string) (now : datetime)
    (text task : string) (st : store) : http_response * store :=
  match TextRequest text with
  | None => (HttpValidationError, st)
  | Some request_text =>
      match process_text uuid now request_text task st with
      | (Ok saved_result, st') => (Http200 saved_result, st')
      | (Err (HTTPException status_code detail), st') =>
          (HttpError status_code detail, st')
      | (Err _, st') => (HttpError 500 "Internal Server Error", st')
      end
  end.

End Service.

End Main.

(* ================================================================== *)
(** ** llm_service.py: construction of the service *)

Module Startup.

(** [c.lower()] on a code point below 256: the ASCII capitals and the
    Latin-1 capitals other than the multiplication sign move up by 32. *)
Definition lower_char (c : ascii) : ascii :=
  let n := N_of_ascii c in
  if ((65 <=? n) && (n <=? 90)
      || (192 <=? n) && (n <=? 222) && negb (n =? 215))%N
  then ascii_of_N (n + 32)
  else c.

(** [s.lower()] *)
Fixpoint lower (s : string) : string :=
  match s with
  | EmptyString => EmptyString
  | String c s' => String (lower_char c) (lower s')
  end.

(** How loading the three pipelines can fail. *)
Inductive load_failure : Type :=
| LoadImportError
| LoadOtherError (msg : string).

(** What the module reads when it is imported: the two environment
    variables ([None] when unset), whether [import openai] and
    [from transformers import pipeline] succeed, and the outcome of the
    [pipeline(...)] calls ([None] when they all return). *)
Record environment : Type := mkEnvironment {
  LLM_PROVIDER : option string;
  OPENAI_API_KEY : option string;
  openai_installed : bool;
  transformers_installed : bool;
  pipelines_failure : option load_failure
}.

(** The exceptions of [__init__]. *)
Inductive startup_error : Type :=
| ConfigValueError (msg : string)
| ImportError (msg : string)
| PipelineError (msg : string).

(** [_init_openai]: the missing key is a [ValueError], which the
    [except ImportError] clause lets through; with a key the client
    constructor returns. *)
Definition _init_openai (env : environment) : startup_error + unit :=
  if openai_installed env then
    match OPENAI_API_KEY env with
    | None | Some EmptyString =>
        inl (ConfigValueError
               "OpenAI API key not found. Please set OPENAI_API_KEY in your .env file.")
    | Some _ => inr tt
    end
  else
    inl (ImportError
           "OpenAI package not installed. Install it with: pip install openai").

(** [_init_huggingface]: an [ImportError] of the import or of a pipeline
    is raised again with the install hint. *)
Definition _init_huggingface (env : environment) : startup_error + unit :=
  let hint :=
    "Transformers package not installed. Install it with: pip install transformers torch" in
  if transformers_installed env then
    match pipelines_failure env with
    | None => inr tt
    | Some LoadImportError => inl (ImportError hint)
    | Some (LoadOtherError msg) => inl (PipelineError msg)
    end
  else inl (ImportError hint).

(** [LLMService.__init__], with [LLM_PROVIDER] read as
    [os.getenv("LLM_PROVIDER", "huggingface")]. *)
Definition init (env : environment) : startup_error + LLMService.provider :=
  let provider :=
    lower (match LLM_PROVIDER env with
           | Some name => name
           | None => "huggingface"
           end) in
  if (provider =? "openai")%string then
    match _init_openai env with
    | inr _ => inr LLMService.OpenAI
    | inl e => inl e
    end
  else if (provider =? "huggingface")%string then
    match _init_huggingface env with
    | inr _ => inr LLMService.HuggingFace
    | inl e => inl e
    end
  else inl (ConfigValueError ("Unsupported LLM provider: " ++ provider)).

End Startup.

(* ================================================================== *)
(** ** Sequences of calls to the store *)

Module Trace.
Import Storage.

(** One call of [save_result]: the id and timestamp it generated and its
    three arguments. *)
Record save_call : Type := mkSave {
  save_id : string;
  save_time : datetime;
  save_text : string;
  save_value : value;
  save_task : string
}.

(** The record the call returns. *)
Definition saved_record (c : save_call) : record :=
  fst (save_result (save_id c) (save_time c) init (save_text c)
         (save_value c) (save_task c)).

(** The store after the call. *)
Definition apply_save (st : store) (c : save_call) : store :=
  snd (save_result (save_id c) (save_time c) st (save_text c)
         (save_value c) (save_task c)).

(** The store after the calls, in order. *)
Definition save_all (calls : list save_call) (st : store) : store :=
  fold_left apply_save calls st.

(** The stores a process can hold: [save_result] is the only writer. *)
Definition reachable (st : store) : Prop :=
  exists calls, st = save_all calls init.

End Trace.

(* ================================================================== *)
(** ** Measures used to state properties *)

Module Measure.

(** The sum of [m] over the values of a dict. *)
Definition total (K V : Type) (m : V -> Z) (d : dict K V) : Z :=
  BusinessLogic.sum_Z (map (fun kv => m (snd kv)) d).

Fixpoint all_space (s : string) : bool :=
  match s with
  | EmptyString => true
  | String c s' => isspace c && all_space s'
  end.

Definition starts_with_space (s : string) : bool :=
  match s with
  | EmptyString => false
  | String c _ => isspace c
  end.

Definition ends_with_space (s : string) : bool :=
  starts_with_space (rev_string s "").

(** [k in v] for a dict [v]. *)
Definition has_key (k : string) (v : value) : bool :=
  match v with
  | VDict d => dict_mem String.eqb k d
  | _ => false
  end.

(** The chat call [summarize_text] makes for the openai variant. *)
Definition summarize_request (text : string) : LLMService.request :=
  LLMService.ChatCompletionsCreate "gpt-3.5-turbo"
    [LLMService.mkMessage "system"
       "You are a helpful assistant that summarizes text.";
     LLMService.mkMessage "user"
       ("Please summarize the following text in a concise paragraph:"
        ++ LLMService.nl ++ LLMService.nl ++ text)]
    (Some 150) false.

(** [isinstance(v, dict)] *)
Definition is_dict (v : value) : bool :=
  match v with
  | VDict _ => true
  | _ => false
  end.

(** The number of words [str.split()] finds. *)
Definition word_count (text : string) : Z :=
  Z.of_nat (List.length (split text)).

End Measure.

(* ================================================================== *)
(** ** Test doubles for the backend and for [json.loads] *)

Module Double.
Import LLMService.

(** A chat API that answers every chat call with [content]; the local
    pipelines are not loaded. *)
Definition chat_backend (content : string) : backend :=
  fun r =>
    match r as r0 return result (response r0) with
    | ChatCompletionsCreate _ _ _ _ => Ok content
    | Summarizer _ _ _ _ => Err (BackendError "pipeline not loaded")
    | NerPipeline _ => Err (BackendError "pipeline not loaded")
    | SentimentAnalyzer _ => Err (BackendError "pipeline not loaded")
    end.

(** Local pipelines with fixed outputs; no chat API. *)
Definition pipeline_backend (summary : list string) (entities : list ner_item)
    (sentiment : list sentiment_item) : backend :=
  fun r =>
    match r as r0 return result (response r0) with
    | ChatCompletionsCreate _ _ _ _ => Err (BackendError "no client")
    | Summarizer _ _ _ _ => Ok summary
    | NerPipeline _ => Ok entities
    | SentimentAnalyzer _ => Ok sentiment
    end.

(** A backend that cannot be reached. *)
Definition failing_backend : backend :=
  fun r => Err (BackendError "connection refused").

(** [json.loads] as far as it is known at [content], where it returns
    [v]; the other strings are taken as undecodable. *)
Definition json_loads_at (content : string) (v : value)
    : string -> option value :=
  fun s => if (s =? content)%string then Some v else None.




End Double.

(* ================================================================== *)
(** ** The properties as the specification words them

    These definitions follow the specification's sentences; the theorems
    compare them with the code's definitions above. *)

Module Spec.






(** "sentiment: one of POSITIVE, NEGATIVE, NEUTRAL; score: float in [0,1]". *)
Definition sentiment_shape_ok (v : value) : bool :=
  match v with
  | VDict d =>
      match dict_get String.eqb "sentiment" d, dict_get String.eqb "score" d with
      | Some (VStr s), Some (VFloat q) =>
          ((s =? "POSITIVE")%string || (s =? "NEGATIVE")%string
           || (s =? "NEUTRAL")%string)
          && Qle_bool 0 q && Qle_bool q 1
      | _, _ => false
      end
  | _ => false
  end.

(** How many records are counted under key [k]. *)
Definition count_key (A K : Type) (keq : K -> K -> bool) (key : A -> result K)
    (k : K) (l : list A) : Z :=
  Z.of_nat (List.length
    (filter (fun r => match key r with
                      | Ok k' => keq k k'
                      | Err _ => false
                      end) l)).

(** The records of the sentiment task. *)
Definition sentiment_records (st : Storage.store) : list Storage.record :=
  filter (fun r => (Storage.task_type r =? "sentiment")%string)
         (Storage.get_all_results st).

End Spec.

(* ================================================================== *)
(** ** Facts about dictionaries *)

Section DictFacts.
Variables (K V : Type) (keq : K -> K -> bool).
Hypothesis keq_refl : forall k, keq k k = true.
Hypothesis keq_sym : forall a b, keq a b = keq b a.
Hypothesis keq_trans :
  forall a b c, keq a b = true -> keq b c = true -> keq a c = true.

Lemma keq_false_l (a b c : K) :
  keq a b = false -> keq b c = true -> keq a c = false.
Proof.
  intros Hab Hbc. destruct (keq a c) eqn:Hac; auto.
  rewrite keq_sym in Hbc. rewrite (keq_trans Hac Hbc) in Hab.
  discriminate.
Qed.

Lemma dict_get_set_same (k : K) (v : V) (d : dict K V) :
  dict_get keq k (dict_set keq k v d) = Some v.
Proof.
  induction d as [|[k' v'] d IH]; simpl.
  - now rewrite keq_refl.
  - destruct (keq k k') eqn:E; simpl; rewrite E; auto.
Qed.

Lemma dict_get_congr (k1 k2 : K) (d : dict K V) :
  keq k1 k2 = true -> dict_get keq k1 d = dict_get keq k2 d.
Proof.
  intros H. induction d as [|[k' v'] d IH]; simpl; auto.
  destruct (keq k2 k') eqn:E.
  - now rewrite (keq_trans H E).
  - rewrite keq_sym in H. rewrite keq_sym in E.
    assert (keq k' k1 = false) as E1 by (eapply keq_false_l; eauto).
    rewrite keq_sym in E1. now rewrite E1.
Qed.

Lemma dict_get_set_equiv (k1 k : K) (v : V) (d : dict K V) :
  keq k1 k = true -> dict_get keq k1 (dict_set keq k v d) = Some v.
Proof.
  intros H. rewrite (dict_get_congr _ H). apply dict_get_set_same.
Qed.

Lemma dict_get_set_other (k1 k : K) (v : V) (d : dict K V) :
  keq k1 k = false -> dict_get keq k1 (dict_set keq k v d) = dict_get keq k1 d.
Proof.
  intros H. induction d as [|[k' v'] d IH]; simpl.
  - now rewrite H.
  - destruct (keq k k') eqn:E; simpl.
    + now rewrite (keq_false_l H E).
    + now rewrite IH.
Qed.


End DictFacts.

Lemma string_eqb_trans (a b c : string) :
  (a =? b)%string = true -> (b =? c)%string = true -> (a =? c)%string = true.
Proof.
  rewrite !String.eqb_eq. congruence.
Qed.

(* ================================================================== *)
(** ** Result Store *)

(** C9: after [save_result], [get_result_by_id] on the id of the returned
    record yields that very record, for every store state, every inputs and
    whatever id and timestamp the call generated. *)
Theorem save_then_get_by_id :
  forall (st : Storage.store) (uuid : string) (now : datetime)
         (text : string) (pr : value) (task : string),
    let (r, st') := Storage.save_result uuid now st text pr task in
    Storage.get_result_by_id st' (Storage.id r) = Some r.
Proof.
  intros. unfold Storage.save_result, Storage.get_result_by_id. simpl.
  apply dict_get_set_same. apply String.eqb_refl.
Qed.

(* ================================================================== *)
(** ** Rounding *)

Lemma round_half_even_bound (q : Q) :
  2 * Z.abs (Qnum q - round_half_even q * Zpos (Qden q)) <= Zpos (Qden q).
Proof.
  unfold round_half_even. destruct q as [n d]. cbn [Qnum Qden].
  pose proof (Z.div_mod n (Zpos d) ltac:(lia)) as E.
  pose proof (Z.mod_pos_bound n (Zpos d) ltac:(lia)) as B.
  set (f := n / Zpos d) in *. set (r := n mod Zpos d) in *.
  assert (E0 : n - f * Zpos d = r) by (rewrite E at 1; ring).
  assert (E1 : n - (f + 1) * Zpos d = r - Zpos d) by (rewrite E at 1; ring).
  clearbody f r. clear E.
  destruct (Z.compare_spec (2 * r) (Zpos d)) as [C|C|C].
  - destruct (Z.even f); rewrite ?E0, ?E1; lia.
  - rewrite E0. lia.
  - rewrite E1. lia.
Qed.




(* ================================================================== *)
(** ** Text-Analysis Provider *)

Lemma run_call (A : Type) (b : LLMService.backend) (r : LLMService.request)
    (x : LLMService.response r) (k : LLMService.response r -> LLMService.prog A) :
  b r = Ok x -> LLMService.run b (LLMService.Call r k) = LLMService.run b (k x).
Proof. intros H. simpl. now rewrite H. Qed.

(** C3: for either provider variant, a text of fewer than 30
    whitespace-separated words is returned as its own summary together
    with the note, and the backend is not called. *)
Theorem summarize_short_text_bypasses_backend :
  forall (p : LLMService.provider) (text : string),
    Z.of_nat (List.length (split text)) < 30 ->
    LLMService.summarize_text p text =
      LLMService.Ret
        (VDict [("summary", VStr text);
                ("note", VStr "Text too short for meaningful summarization")])
    /\ forall b, LLMService.calls b (LLMService.summarize_text p text) = [].
Proof.
  intros p text H. unfold LLMService.summarize_text.
  apply Z.ltb_lt in H. rewrite H. split; reflexivity.
Qed.

Lemma summarize_short_text_witness :
  Z.of_nat (List.length (split "A short text.")) < 30 /\
  LLMService.summarize_text LLMService.HuggingFace "A short text." =
    LLMService.Ret
      (VDict [("summary", VStr "A short text.");
              ("note", VStr "Text too short for meaningful summarization")]).
Proof.
  split.
  - vm_compute. reflexivity.
  - apply (summarize_short_text_bypasses_backend LLMService.HuggingFace
             "A short text.").
    vm_compute. reflexivity.
Defined.

(** C8: for every text and every task name other than summarize, entities
    and sentiment, [process_text] raises [ValueError] naming the task; it
    neither returns a result nor calls the backend. *)
Theorem process_text_rejects_unknown_task :
  forall (json_loads : string -> option value) (p : LLMService.provider)
         (text task : string),
    task <> "summarize" -> task <> "entities" -> task <> "sentiment" ->
    LLMService.process_text json_loads p text task =
      LLMService.Raise (ValueError ("Unsupported task: " ++ task)).
Proof.
  intros jl p text task H1 H2 H3. unfold LLMService.process_text.
  apply String.eqb_neq in H1, H2, H3. now rewrite H1, H2, H3.
Qed.

Lemma process_text_rejects_unknown_task_witness :
  "translate" <> "summarize" /\ "translate" <> "entities" /\
  "translate" <> "sentiment" /\
  LLMService.process_text (fun _ => None) LLMService.OpenAI "Bonjour" "translate" =
    LLMService.Raise (ValueError "Unsupported task: translate").
Proof.
  assert (H1 : "translate" <> "summarize") by discriminate.
  assert (H2 : "translate" <> "entities") by discriminate.
  assert (H3 : "translate" <> "sentiment") by discriminate.
  split; [exact H1 | split; [exact H2 | split; [exact H3 |]]].
  exact (process_text_rejects_unknown_task (fun _ => None) LLMService.OpenAI
           "Bonjour" H1 H2 H3).
Defined.

(** C4, the claim as stated fails: the chat API answers [{}], valid JSON
    that has none of the expected fields, and [analyze_sentiment] returns
    it as it is instead of the NEUTRAL fallback. *)
Lemma analyze_sentiment_returns_unexpected_json :
  Spec.sentiment_shape_ok (VDict []) = false /\
  LLMService.run (Double.chat_backend "{}")
    (LLMService.analyze_sentiment (Double.json_loads_at "{}" (VDict []))
       LLMService.OpenAI "I love it")
  = Ok (VDict []) /\
  VDict [] <> LLMService.sentiment_fallback.
Proof.
  repeat split; try reflexivity. discriminate.
Qed.

(** C4, amended: when the chat API's answer is not valid JSON
    ([json.loads] raises [JSONDecodeError]), [analyze_sentiment] of the
    openai variant does not raise and returns sentiment NEUTRAL, score 0.5
    and an error field; an answer that is valid JSON is returned as parsed,
    whatever its structure. *)
Theorem analyze_sentiment_openai_json_fallback :
  forall (json_loads : string -> option value) (b : LLMService.backend)
         (text content : string),
    b (LLMService.sentiment_request text) = Ok content ->
    (json_loads content = None ->
     LLMService.run b
       (LLMService.analyze_sentiment json_loads LLMService.OpenAI text)
     = Ok (VDict [("sentiment", VStr "NEUTRAL"); ("score", VFloat (1 # 2));
                  ("error", VStr "Failed to parse sentiment analysis result")]))
    /\ (forall v, json_loads content = Some v ->
        LLMService.run b
          (LLMService.analyze_sentiment json_loads LLMService.OpenAI text)
        = Ok v).
Proof.
  intros jl b text content Hb. unfold LLMService.analyze_sentiment.
  erewrite run_call by exact Hb.
  split; [intros -> | intros v ->]; reflexivity.
Qed.

Lemma analyze_sentiment_openai_json_fallback_witness :
  Double.chat_backend "Sure! The sentiment is positive."
    (LLMService.sentiment_request "I love it")
  = Ok "Sure! The sentiment is positive." /\
  LLMService.run (Double.chat_backend "Sure! The sentiment is positive.")
    (LLMService.analyze_sentiment (fun _ => None) LLMService.OpenAI "I love it")
  = Ok (VDict [("sentiment", VStr "NEUTRAL"); ("score", VFloat (1 # 2));
               ("error", VStr "Failed to parse sentiment analysis result")]).
Proof.
  split; [reflexivity|].
  apply (proj1 (@analyze_sentiment_openai_json_fallback (fun _ => None)
                  (Double.chat_backend "Sure! The sentiment is positive.")
                  "I love it" "Sure! The sentiment is positive." eq_refl)).
  reflexivity.
Defined.



(* ================================================================== *)
(** ** Reporting Engine *)

Lemma key_eqb_refl (a : hashable) : key_eqb a a = true.
Proof.
  destruct a; unfold key_eqb; simpl; auto using Qeq_bool_refl, String.eqb_refl.
Qed.

Lemma Qeq_bool_comm (x y : Q) : Qeq_bool x y = Qeq_bool y x.
Proof.
  destruct (Qeq_bool x y) eqn:E1, (Qeq_bool y x) eqn:E2; auto.
  - apply Qeq_bool_sym in E1. congruence.
  - apply Qeq_bool_sym in E2. congruence.
Qed.

Lemma key_eqb_sym (a b : hashable) : key_eqb a b = key_eqb b a.
Proof.
  destruct a, b; unfold key_eqb; simpl;
    auto using Qeq_bool_comm, String.eqb_sym.
Qed.

Lemma key_eqb_trans (a b c : hashable) :
  key_eqb a b = true -> key_eqb b c = true -> key_eqb a c = true.
Proof.
  destruct a, b, c; unfold key_eqb; simpl; try discriminate; auto;
    try (intros H1 H2; exact (Qeq_bool_trans _ _ _ H1 H2)).
  apply string_eqb_trans.
Qed.

Section Counting.
Variables (K : Type) (keq : K -> K -> bool).
Hypothesis keq_refl : forall k, keq k k = true.
Hypothesis keq_sym : forall a b, keq a b = keq b a.
Hypothesis keq_trans :
  forall a b c, keq a b = true -> keq b c = true -> keq a c = true.

(** One turn of the counting idiom never raises and adds one to the
    count of its key. *)
Lemma count_step_spec (d : dict K Z) (k : K) :
  exists d', BusinessLogic.count_step keq d k = Ok d' /\
    forall k1, dict_get keq k1 d' =
               if keq k1 k then Some (dict_get_default keq k1 0 d + 1)
               else dict_get keq k1 d.
Proof.
  unfold BusinessLogic.count_step, dict_mem, dict_getitem.
  destruct (dict_get keq k d) as [n|] eqn:G.
  - rewrite G. simpl. eexists; split; [reflexivity|].
    intros k1. destruct (keq k1 k) eqn:E.
    + erewrite dict_get_set_equiv by eauto.
      unfold dict_get_default.
      erewrite dict_get_congr by eauto. now rewrite G.
    + erewrite dict_get_set_other by eauto. reflexivity.
  - erewrite dict_get_set_same by eauto. simpl.
    eexists; split; [reflexivity|].
    intros k1. destruct (keq k1 k) eqn:E.
    + erewrite dict_get_set_equiv by eauto.
      unfold dict_get_default.
      erewrite dict_get_congr by eauto. now rewrite G.
    + erewrite !dict_get_set_other by eauto. reflexivity.
Qed.

Variables (A : Type) (key : A -> result K).

Lemma count_key_nonneg (k : K) (l : list A) : 0 <= Spec.count_key keq key k l.
Proof. unfold Spec.count_key. lia. Qed.

Lemma count_key_cons (k : K) (a : A) (l : list A) :
  Spec.count_key keq key k (a :: l) =
  (match key a with
   | Ok k' => if keq k k' then 1 else 0
   | Err _ => 0
   end) + Spec.count_key keq key k l.
Proof.
  unfold Spec.count_key. simpl.
  destruct (key a) as [k'|]; [destruct (keq k k')|]; simpl List.length; lia.
Qed.

(** The counting loop over records whose key can be computed: the count
    under each key is the number of records with that key. *)
Lemma count_loop_spec (l : list A) :
  Forall (fun r => is_ok (key r) = true) l ->
  forall d, exists d',
    for_each (fun d r => k <- key r ;; BusinessLogic.count_step keq d k) l d
    = Ok d' /\
    forall k, dict_get keq k d' =
              if Spec.count_key keq key k l =? 0 then dict_get keq k d
              else Some (dict_get_default keq k 0 d + Spec.count_key keq key k l).
Proof.
  induction 1 as [|a l Ha Hl IH]; intros d.
  - exists d. split; [reflexivity|]. intros k. reflexivity.
  - simpl. destruct (key a) as [ka|] eqn:Ka; [|discriminate]. simpl.
    destruct (count_step_spec d ka) as (d1 & Hd1 & G1). rewrite Hd1. simpl.
    destruct (IH d1) as (d' & Hd' & G'). exists d'. split; [exact Hd'|].
    intros k. rewrite G', count_key_cons, Ka.
    unfold dict_get_default. rewrite G1.
    pose proof (count_key_nonneg k l) as Hn.
    destruct (keq k ka).
    + destruct (Spec.count_key keq key k l =? 0) eqn:E0.
      * apply Z.eqb_eq in E0. rewrite E0. simpl. f_equal; lia.
      * apply Z.eqb_neq in E0.
        replace (1 + Spec.count_key keq key k l =? 0) with false
          by (symmetry; apply Z.eqb_neq; lia).
        f_equal. unfold dict_get_default. lia.
    + reflexivity.
Qed.
End Counting.

Lemma task_counts_ok (l : list Storage.record) :
  exists d,
    for_each (fun d r => BusinessLogic.count_step String.eqb d (Storage.task_type r))
      l [] = Ok d.
Proof.
  destruct (@count_loop_spec string String.eqb String.eqb_refl String.eqb_sym
              string_eqb_trans Storage.record
              (fun r => Ok (Storage.task_type r)) l) with (d := @nil (string * Z))
    as (d & Hd & _).
  - apply Forall_forall. reflexivity.
  - exists d. exact Hd.
Qed.

(** C7: on the empty store [get_processing_stats] returns total_processed
    0, no task counts and average_text_length 0; on every store it returns
    without raising, so no division by zero happens: the average is the
    int 0 on the empty store and the float of the division only when there
    is at least one record. *)
Theorem processing_stats_never_divides_by_zero :
  BusinessLogic.get_processing_stats Storage.init
  = Ok (VDict [("total_processed", VInt 0); ("by_task_type", VDict []);
               ("average_text_length", VInt 0)])
  /\ forall st : Storage.store,
       let results := Storage.get_all_results st in
       let n := Z.of_nat (List.length results) in
       exists task_counts average,
         BusinessLogic.get_processing_stats st
         = Ok (VDict
                 [("total_processed", VInt n);
                  ("by_task_type", BusinessLogic.int_dict task_counts);
                  ("average_text_length", average)])
         /\ match results with
            | [] => average = VInt 0
            | _ :: _ => exists q, average = VFloat q
            end.
Proof.
  split; [reflexivity|].
  intros st results n. unfold BusinessLogic.get_processing_stats.
  fold results. destruct (task_counts_ok results) as (d & Hd).
  exists d. rewrite Hd. simpl bind at 1.
  subst n. destruct results as [|r l].
  - exists (VInt 0). split; reflexivity.
  - unfold truediv.
    replace (Z.of_nat (List.length (r :: l)) =? 0) with false
      by (symmetry; apply Z.eqb_neq; simpl List.length; lia).
    eexists. split; [reflexivity|]. eexists. reflexivity.
Qed.

(** C2, the claim as stated fails: a sentiment record whose label is the
    empty string is counted under the empty string, and the distribution
    has no UNKNOWN bucket. *)
Lemma sentiment_distribution_keeps_empty_label :
  let r := Storage.mkRecord "id-1" "meh" (VDict [("sentiment", VStr "")])
             "sentiment" 0 in
  BusinessLogic.get_sentiment_distribution [("id-1", r)] = Ok [(HStr "", 1)]
  /\ dict_get key_eqb (HStr "UNKNOWN") [(HStr "", 1)] = None.
Proof. split; reflexivity. Qed.

(** C2, amended: [get_sentiment_distribution] counts only the records
    whose task_type is sentiment.  A record whose processed_result has no
    sentiment key is counted under UNKNOWN; a record that has the key is
    counted under the value found there, whatever it is (the empty string
    under the empty string, null under None).  Every sentiment record is
    counted in exactly this bucket, none is dropped: the count under each
    key is the number of sentiment records with that key.  This holds for
    every store whose sentiment records hold a dict with a hashable
    label. *)
Theorem sentiment_distribution_counts_by_label :
  forall st : Storage.store,
    Forall (fun r => is_ok (BusinessLogic.sentiment_key r) = true)
           (Spec.sentiment_records st) ->
    (exists distribution,
       BusinessLogic.get_sentiment_distribution st = Ok distribution /\
       forall k,
         dict_get key_eqb k distribution =
         let n := Spec.count_key key_eqb BusinessLogic.sentiment_key k
                    (Spec.sentiment_records st) in
         if n =? 0 then None else Some n)
    /\ (forall r d,
          Storage.processed_result r = VDict d ->
          BusinessLogic.sentiment_key r =
          match dict_get String.eqb "sentiment" d with
          | None => Ok (HStr "UNKNOWN")
          | Some v => hash_key v
          end).
Proof.
  intros st H. split.
  - destruct (@count_loop_spec hashable key_eqb key_eqb_refl key_eqb_sym
                key_eqb_trans Storage.record BusinessLogic.sentiment_key
                (Spec.sentiment_records st) H []) as (d & Hd & G).
    exists d. split; [exact Hd|]. intros k. rewrite G. simpl.
    destruct (_ =? 0); reflexivity.
  - intros r d Hr. unfold BusinessLogic.sentiment_key, py_get.
    rewrite Hr. unfold dict_get_default.
    destruct (dict_get String.eqb "sentiment" d); reflexivity.
Qed.

Lemma sentiment_distribution_counts_by_label_witness :
  let st : Storage.store :=
    [("a", Storage.mkRecord "a" "fine" (VDict [("score", VFloat (1 # 2))])
             "sentiment" 0);
     ("b", Storage.mkRecord "b" "text" (VDict [("summary", VStr "text")])
             "summarize" 1);
     ("c", Storage.mkRecord "c" "hm" (VDict [("sentiment", VNone)])
             "sentiment" 2)] in
  Forall (fun r => is_ok (BusinessLogic.sentiment_key r) = true)
         (Spec.sentiment_records st)
  /\ exists distribution,
       BusinessLogic.get_sentiment_distribution st = Ok distribution /\
       dict_get key_eqb (HStr "UNKNOWN") distribution = Some 1 /\
       dict_get key_eqb HNone distribution = Some 1.
Proof.
  intros st.
  assert (H : Forall (fun r => is_ok (BusinessLogic.sentiment_key r) = true)
                     (Spec.sentiment_records st))
    by (repeat constructor).
  split; [exact H|].
  destruct (proj1 (sentiment_distribution_counts_by_label st H))
    as (d & Hd & G).
  exists d. split; [exact Hd|]. split; rewrite G; reflexivity.
Defined.

Lemma timedelta_hours_in_range (now : datetime) (hours : Z) :
  datetime_valid now = true ->
  datetime_valid (now - hours * 3600 * 1000000) = true ->
  timedelta_hours hours = Ok (hours * 3600 * 1000000).
Proof.
  unfold datetime_valid, datetime_end, timedelta_hours.
  rewrite !andb_true_iff, !Z.leb_le, !Z.ltb_lt. intros [H1 H2] [H3 H4].
  assert (-100000000 < hours < 100000000) as Hh by lia.
  assert (-999999999 <= hours / 24 <= 999999999) as Hd.
  { split.
    - apply Z.div_le_lower_bound; lia.
    - apply Z.div_le_upper_bound; lia. }
  replace (hours / 24 <? -999999999) with false
    by (symmetry; apply Z.ltb_ge; lia).
  replace (999999999 <? hours / 24) with false
    by (symmetry; apply Z.ltb_ge; lia).
  reflexivity.
Qed.

(** C6, the claim as stated fails: 20000000 hours before 2026-11-03 noon
    is before year 1, so the subtraction raises [OverflowError] and no
    sequence is returned. *)
Lemma recent_activity_overflows_on_large_window :
  let now := 63929304000000000 in
  let r := Storage.mkRecord "id-1" "hello" (VDict []) "summarize" (now - 1) in
  datetime_valid now = true /\
  BusinessLogic.get_recent_activity now [("id-1", r)] 20000000
  = Err OverflowError.
Proof. split; reflexivity. Qed.

(** C6, amended: for every store state and every hours value for which
    now - hours is a datetime (from year 1 to year 9999),
    [get_recent_activity] returns exactly the records whose created_at is
    strictly after now - hours, in the order the store yields them; for
    hours = 0 it returns the empty sequence, no record of the store being
    timestamped after now. *)
Theorem recent_activity_filters_after_cutoff :
  forall (now : datetime) (st : Storage.store) (hours : Z),
    datetime_valid now = true ->
    datetime_valid (now - hours * 3600 * 1000000) = true ->
    BusinessLogic.get_recent_activity now st hours
    = Ok (filter (fun r => now - hours * 3600 * 1000000 <? Storage.created_at r)
                 (Storage.get_all_results st))
    /\ (hours = 0 ->
        Forall (fun r => Storage.created_at r <= now)
               (Storage.get_all_results st) ->
        BusinessLogic.get_recent_activity now st hours = Ok []).
Proof.
  intros now st hours Hnow Hcut.
  assert (E : BusinessLogic.get_recent_activity now st hours
              = Ok (filter (fun r => now - hours * 3600 * 1000000
                                     <? Storage.created_at r)
                           (Storage.get_all_results st))).
  { unfold BusinessLogic.get_recent_activity.
    rewrite (@timedelta_hours_in_range now hours Hnow Hcut). simpl.
    unfold datetime_sub. rewrite Hcut. reflexivity. }
  split; [exact E|].
  intros -> Hpast. rewrite E. f_equal. clear E.
  induction Hpast as [|r l Hr Hl IH]; [reflexivity|].
  simpl.
  replace (now - 0 <? Storage.created_at r) with false
    by (symmetry; apply Z.ltb_ge; lia).
  exact IH.
Qed.

(** The proviso on hours = 0 is needed: a record timestamped after the
    value [now] read by the call (the wall clock was set back in between)
    is returned for the empty window. *)
Lemma recent_activity_zero_window_future_record :
  let now := 63929304000000000 in
  let r := Storage.mkRecord "id-1" "hello" (VDict []) "summarize" (now + 1) in
  BusinessLogic.get_recent_activity now [("id-1", r)] 0 = Ok [r].
Proof. reflexivity. Qed.

Lemma recent_activity_filters_after_cutoff_witness :
  let now := 63929304000000000 in
  let old := Storage.mkRecord "a" "old" (VDict []) "summarize"
               (now - 3 * 3600 * 1000000) in
  let new := Storage.mkRecord "b" "new" (VDict []) "entities"
               (now - 1800 * 1000000) in
  datetime_valid now = true /\
  datetime_valid (now - 1 * 3600 * 1000000) = true /\
  BusinessLogic.get_recent_activity now [("a", old); ("b", new)] 1 = Ok [new].
Proof.
  intros now old new.
  split; [reflexivity|]. split; [reflexivity|].
  exact (proj1 (@recent_activity_filters_after_cutoff now
                  [("a", old); ("b", new)] 1 eq_refl eq_refl)).
Defined.

(* ================================================================== *)
(** ** Request Gateway *)

(** An unknown task name makes the provider raise. *)
Lemma llm_process_text_unknown_task
    (p : LLMService.provider) (b : LLMService.backend)
    (json_loads : string -> option value) (text task : string) :
  Main.task_in task Main.valid_tasks = false ->
  Main.llm_process_text p b json_loads text task
  = Err (ValueError ("Unsupported task: " ++ task)).
Proof.
  unfold Main.task_in, Main.valid_tasks, Main.llm_process_text,
    LLMService.process_text. simpl.
  rewrite !orb_false_iff. intros (H1 & H2 & H3 & _).
  now rewrite H1, H2, H3.
Qed.

(** C10: when the provider raises while processing a request, an invalid
    task name included, the [/process] handler answers with an error and
    the store after the request is the store before it; a record is saved
    only when [process_text] of the provider has returned, and it is the
    one [save_result] builds from what it returned. *)
Theorem failed_processing_saves_nothing :
  forall (p : LLMService.provider) (b : LLMService.backend)
         (json_loads : string -> option value) (str_exn : exn -> string)
         (uuid : string) (now : datetime) (text task : string)
         (st : Storage.store),
    ((Main.task_in task Main.valid_tasks = false \/
      exists e, Main.llm_process_text p b json_loads text task = Err e) ->
     (exists detail,
        Main.process_text p b json_loads str_exn uuid now text task st
        = (Err (HTTPException 500 detail), st))
     /\ snd (Main.post_process p b json_loads str_exn uuid now text task st) = st)
    /\ (forall saved st',
          Main.process_text p b json_loads str_exn uuid now text task st
          = (Ok saved, st') ->
          exists processed_result,
            Main.llm_process_text p b json_loads text task = Ok processed_result
            /\ (saved, st')
               = Storage.save_result uuid now st text processed_result task).
Proof.
  intros p b jl str_exn uuid now text task st.
  assert (Hfail :
    (exists e, Main.llm_process_text p b jl text task = Err e) ->
    exists detail,
      Main.process_text p b jl str_exn uuid now text task st
      = (Err (HTTPException 500 detail), st)).
  { intros [e He]. unfold Main.process_text, Main.try_except, Main.bindM,
      Main.lift, Main.ret.
    destruct (Main.task_in task Main.valid_tasks); simpl.
    - rewrite He. eexists; reflexivity.
    - eexists; reflexivity. }
  split.
  - intros H.
    assert (Hex : exists e, Main.llm_process_text p b jl text task = Err e).
    { destruct H as [H|H]; [|exact H].
      eexists. apply llm_process_text_unknown_task. exact H. }
    destruct (Hfail Hex) as [detail Hd]. split.
    + exists detail. exact Hd.
    + unfold Main.post_process. destruct (Main.TextRequest text) as [t|] eqn:T.
      * unfold Main.TextRequest in T.
        destruct (1 <=? len_str text); inversion T; subst t.
        rewrite Hd. reflexivity.
      * reflexivity.
  - intros saved st'.
    unfold Main.process_text, Main.try_except, Main.bindM, Main.lift, Main.ret,
      Main.storage_save_result.
    destruct (Main.task_in task Main.valid_tasks); simpl.
    + destruct (Main.llm_process_text p b jl text task) as [v|e]; simpl.
      * intros H. inversion H; subst. exists v. split; reflexivity.
      * discriminate.
    + discriminate.
Qed.

Lemma failed_processing_saves_nothing_witness :
  let st : Storage.store :=
    [("a", Storage.mkRecord "a" "earlier" (VDict []) "summarize" 5)] in
  (exists e,
     Main.llm_process_text LLMService.OpenAI Double.failing_backend
       (fun _ => None) "Paris is in France" "entities" = Err e)
  /\ snd (Main.post_process LLMService.OpenAI Double.failing_backend
            (fun _ => None) (fun _ => "connection refused") "b" 6
            "Paris is in France" "entities" st) = st.
Proof.
  intros st.
  assert (H : exists e,
     Main.llm_process_text LLMService.OpenAI Double.failing_backend
       (fun _ => None) "Paris is in France" "entities" = Err e)
    by (eexists; reflexivity).
  split; [exact H|].
  exact (proj2 (proj1 (failed_processing_saves_nothing LLMService.OpenAI
                         Double.failing_backend (fun _ => None)
                         (fun _ => "connection refused") "b" 6
                         "Paris is in France" "entities" st)
                  (or_intror H))).
Defined.

(* ================================================================== *)
(** ** Entity grouping *)

Section Grouping.
Import LLMService.



Lemma dict_set_keys_In (V : Type) (k x : string) (v : V) (d : dict string V) :
  In x (map fst (dict_set String.eqb k v d)) -> x = k \/ In x (map fst d).
Proof.
  induction d as [|[k' v'] d IH]; simpl.
  - intros [H|[]]; auto.
  - destruct (k =? k')%string; simpl; intros [H|H]; auto.
    destruct (IH H); auto.
Qed.

Lemma dict_set_keys_NoDup (V : Type) (k : string) (v : V) (d : dict string V) :
  NoDup (map fst d) -> NoDup (map fst (dict_set String.eqb k v d)).
Proof.
  induction d as [|[k' v'] d IH]; simpl; intros H.
  - constructor; [intros []|constructor].
  - inversion H as [|? ? Hn Hd]; subst.
    destruct (k =? k')%string eqn:E; simpl.
    + constructor; assumption.
    + constructor; [|auto]. intros Hin.
      destruct (dict_set_keys_In _ _ _ _ Hin) as [->|Hin']; [|contradiction].
      rewrite String.eqb_refl in E. discriminate.
Qed.






End Grouping.




(* ================================================================== *)
(** ** Result Store: insertion order, overwriting, reachable stores *)

Section DictShape.
Variables (K V : Type) (keq : K -> K -> bool).

Lemma dict_set_absent (k : K) (v : V) (d : dict K V) :
  dict_get keq k d = None -> dict_set keq k v d = (d ++ [(k, v)])%list.
Proof.
  induction d as [|[k' v'] d IH]; simpl; [reflexivity|].
  destruct (keq k k'); [discriminate|]. intros H. now rewrite IH.
Qed.

Lemma dict_set_present (k : K) (v o : V) (d : dict K V) :
  dict_get keq k d = Some o ->
  exists d1 k' d2,
    keq k k' = true /\ dict_get keq k d1 = None /\
    d = (d1 ++ (k', o) :: d2)%list /\
    dict_set keq k v d = (d1 ++ (k', v) :: d2)%list.
Proof.
  induction d as [|[k' v'] d IH]; simpl; [discriminate|].
  destruct (keq k k') eqn:E.
  - intros H. inversion H; subst. exists [], k', d. simpl. auto.
  - intros H. destruct (IH H) as (d1 & k1 & d2 & H1 & H2 & H3 & H4).
    exists ((k', v') :: d1), k1, d2. simpl. rewrite E, H4, <- H3. auto.
Qed.

Lemma dict_get_In (k : K) (v : V) (d : dict K V) :
  dict_get keq k d = Some v -> In v (dict_values d).
Proof.
  unfold dict_values.
  induction d as [|[k' v'] d IH]; simpl; [discriminate|].
  destruct (keq k k'); intros H; [inversion H; auto|auto].
Qed.

(** The sum of a measure over the values after an assignment. *)
Lemma total_dict_set (m : V -> Z) (k : K) (v : V) (d : dict K V) :
  Measure.total m (dict_set keq k v d) =
  Measure.total m d
  - match dict_get keq k d with Some o => m o | None => 0 end
  + m v.
Proof.
  unfold Measure.total.
  induction d as [|[k' v'] d IH]; simpl; [lia|].
  destruct (keq k k'); simpl; lia.
Qed.
End DictShape.

Lemma string_dict_In_get (V : Type) (k : string) (v : V) (d : dict string V) :
  NoDup (map fst d) -> In (k, v) d -> dict_get String.eqb k d = Some v.
Proof.
  induction d as [|[k' v'] d IH]; simpl; intros Hn Hin; [contradiction|].
  inversion Hn as [|? ? Hk Hd]; subst.
  destruct Hin as [Heq|Hin].
  - inversion Heq; subst. now rewrite String.eqb_refl.
  - destruct (k =? k')%string eqn:E.
    + apply String.eqb_eq in E. subst k'. exfalso. apply Hk.
      change k with (fst (k, v)). now apply in_map.
    + auto.
Qed.

(** The two facts every reachable store keeps: its keys are distinct and
    each record sits under its own id. *)
Lemma reachable_store_shape (st : Storage.store) :
  Trace.reachable st ->
  NoDup (map fst st) /\ Forall (fun kv => fst kv = Storage.id (snd kv)) st.
Proof.
  intros [calls ->]. unfold Trace.save_all.
  assert (G : forall st0 : Storage.store,
             NoDup (map fst st0) /\
             Forall (fun kv => fst kv = Storage.id (snd kv)) st0 ->
             NoDup (map fst (fold_left Trace.apply_save calls st0)) /\
             Forall (fun kv => fst kv = Storage.id (snd kv))
                    (fold_left Trace.apply_save calls st0)).
  { induction calls as [|c calls IH]; intros st0 H; [exact H|].
    simpl. apply IH. destruct H as [Hn Hf]. unfold Trace.apply_save. simpl.
    split; [now apply dict_set_keys_NoDup|].
    set (r := Storage.mkRecord _ _ _ _ _).
    destruct (dict_get String.eqb (Trace.save_id c) st0) as [o|] eqn:G.
    - destruct (dict_set_present String.eqb _ r _ G)
        as (d1 & k' & d2 & Hk & _ & Hd & Hs).
      rewrite Hs. rewrite Hd in Hf. apply Forall_app in Hf.
      destruct Hf as [Hf1 Hf2]. inversion Hf2; subst.
      apply Forall_app. split; [assumption|]. constructor; [|assumption].
      apply String.eqb_eq in Hk. now subst k'.
    - rewrite (dict_set_absent _ _ r _ G). apply Forall_app.
      split; [assumption|]. repeat constructor. }
  apply G. split; constructor.
Qed.

(** X1: After [save_result], looking up any other id gives what it gave
    before: a save changes the answer for its own id only. *)
Theorem save_result_keeps_other_ids :
  forall (st : Storage.store) (uuid : string) (now : datetime)
         (text : string) (pr : value) (task other : string),
    other <> uuid ->
    Storage.get_result_by_id
      (snd (Storage.save_result uuid now st text pr task)) other
    = Storage.get_result_by_id st other.
Proof.
  intros st uuid now text pr task other H.
  unfold Storage.get_result_by_id, Storage.save_result. simpl.
  apply dict_get_set_other.
  - exact String.eqb_sym.
  - exact string_eqb_trans.
  - now apply String.eqb_neq.
Qed.

Lemma save_result_keeps_other_ids_witness :
  let old := Storage.mkRecord "a" "first" (VDict []) "summarize" 1 in
  "a" <> "b" /\
  Storage.get_result_by_id
    (snd (Storage.save_result "b" 2 [("a", old)] "second" (VDict []) "entities"))
    "a"
  = Some old.
Proof.
  intros old.
  assert (H : "a" <> "b") by discriminate.
  split; [exact H|].
  exact (save_result_keeps_other_ids [("a", old)] 2 "second" (VDict [])
           "entities" H).
Defined.

(** X2: A save under an id the store does not hold appends: the listing after
    it is the listing before it followed by the new record. *)
Theorem save_result_fresh_id_appends :
  forall (st : Storage.store) (uuid : string) (now : datetime)
         (text : string) (pr : value) (task : string),
    Storage.get_result_by_id st uuid = None ->
    Storage.get_all_results (snd (Storage.save_result uuid now st text pr task))
    = (Storage.get_all_results st
       ++ [fst (Storage.save_result uuid now st text pr task)])%list.
Proof.
  intros st uuid now text pr task H.
  unfold Storage.get_all_results, Storage.save_result, dict_values. simpl.
  rewrite (dict_set_absent _ _ _ _ H). now rewrite map_app.
Qed.

Lemma save_result_fresh_id_appends_witness :
  let old := Storage.mkRecord "a" "first" (VDict []) "summarize" 1 in
  let new := Storage.mkRecord "b" "second" (VDict []) "entities" 2 in
  Storage.get_result_by_id [("a", old)] "b" = None /\
  Storage.get_all_results
    (snd (Storage.save_result "b" 2 [("a", old)] "second" (VDict []) "entities"))
  = [old; new].
Proof.
  intros old new. split; [reflexivity|].
  exact (@save_result_fresh_id_appends [("a", old)] "b" 2 "second" (VDict [])
           "entities" eq_refl).
Defined.

(** X3: A save under an id the store already holds (a repeated uuid)
    overwrites without a sign: the new record takes the place of the old
    one in the listing, whose length does not change. *)
Theorem save_result_repeated_id_overwrites :
  forall (st : Storage.store) (uuid : string) (now : datetime)
         (text : string) (pr : value) (task : string) (old : Storage.record),
    Storage.get_result_by_id st uuid = Some old ->
    exists before after,
      Storage.get_all_results st = (before ++ old :: after)%list /\
      Storage.get_all_results
        (snd (Storage.save_result uuid now st text pr task))
      = (before ++ fst (Storage.save_result uuid now st text pr task) :: after)%list.
Proof.
  intros st uuid now text pr task old H.
  unfold Storage.get_all_results, Storage.save_result, dict_values. simpl.
  destruct (dict_set_present String.eqb _
              (Storage.mkRecord uuid text pr task now) _ H)
    as (d1 & k' & d2 & _ & _ & Hd & Hs).
  exists (map snd d1), (map snd d2). rewrite Hs, Hd, !map_app. auto.
Qed.

Lemma save_result_repeated_id_overwrites_witness :
  let old := Storage.mkRecord "a" "first" (VDict []) "summarize" 1 in
  let other := Storage.mkRecord "b" "second" (VDict []) "entities" 2 in
  Storage.get_result_by_id [("a", old); ("b", other)] "a" = Some old /\
  exists before after,
    Storage.get_all_results [("a", old); ("b", other)]
    = (before ++ old :: after)%list /\
    Storage.get_all_results
      (snd (Storage.save_result "a" 3 [("a", old); ("b", other)] "third"
              (VDict []) "sentiment"))
    = (before ++ Storage.mkRecord "a" "third" (VDict []) "sentiment" 3
         :: after)%list.
Proof.
  intros old other. split; [reflexivity|].
  exact (@save_result_repeated_id_overwrites [("a", old); ("b", other)] "a" 3
           "third" (VDict []) "sentiment" old eq_refl).
Defined.

(** X4: In every store built by saves alone, no two listed records share an
    id, and the listed records are exactly those [get_result_by_id] finds
    under their own id. *)
Theorem reachable_store_lookup_matches_listing :
  forall st : Storage.store,
    Trace.reachable st ->
    NoDup (map Storage.id (Storage.get_all_results st))
    /\ forall r,
         In r (Storage.get_all_results st) <->
         Storage.get_result_by_id st (Storage.id r) = Some r.
Proof.
  intros st H. destruct (reachable_store_shape H) as [Hn Hf].
  unfold Storage.get_all_results, Storage.get_result_by_id, dict_values.
  split.
  - rewrite map_map.
    replace (map (fun x => Storage.id (snd x)) st) with (map fst st);
      [assumption|].
    apply map_ext_in. intros kv Hin.
    exact (proj1 (Forall_forall _ _) Hf kv Hin).
  - intros r. split.
    + intros Hin. apply in_map_iff in Hin. destruct Hin as ([k r'] & E & Hin).
      simpl in E. subst r'.
      pose proof (proj1 (Forall_forall _ _) Hf _ Hin) as Hk. simpl in Hk.
      subst k. now apply string_dict_In_get.
    + apply dict_get_In.
Qed.

Lemma reachable_store_lookup_matches_listing_witness :
  let st := Trace.save_all
              [Trace.mkSave "a" 1 "first" (VDict []) "summarize";
               Trace.mkSave "b" 2 "second" (VDict []) "entities"]
              Storage.init in
  Trace.reachable st /\
  NoDup (map Storage.id (Storage.get_all_results st)).
Proof.
  intros st.
  assert (H : Trace.reachable st) by (eexists; reflexivity).
  split; [exact H|].
  exact (proj1 (reachable_store_lookup_matches_listing H)).
Defined.

Lemma save_all_fresh_ids (calls : list Trace.save_call) :
  forall st : Storage.store,
    NoDup (map Trace.save_id calls) ->
    (forall c, In c calls ->
       Storage.get_result_by_id st (Trace.save_id c) = None) ->
    Storage.get_all_results (Trace.save_all calls st)
    = (Storage.get_all_results st ++ map Trace.saved_record calls)%list.
Proof.
  induction calls as [|c calls IH]; intros st Hn Hfresh.
  - simpl. now rewrite app_nil_r.
  - inversion Hn as [|? ? Hc Hn']; subst.
    change (Trace.save_all (c :: calls) st)
      with (Trace.save_all calls (Trace.apply_save st c)).
    rewrite IH; [|assumption|].
    + unfold Trace.apply_save, Storage.save_result, Storage.get_all_results,
        dict_values. cbn [snd].
      rewrite (dict_set_absent _ _ _ _ (Hfresh c (or_introl eq_refl))).
      rewrite map_app, <- app_assoc. reflexivity.
    + intros c' Hin. unfold Trace.apply_save, Storage.save_result,
        Storage.get_result_by_id. cbn [snd].
      rewrite dict_get_set_other.
      * apply Hfresh. now right.
      * exact String.eqb_sym.
      * exact string_eqb_trans.
      * apply String.eqb_neq. intros E. apply Hc. rewrite <- E.
        now apply in_map.
Qed.

(** X5: Saves under pairwise distinct ids, starting from the empty store, are
    all kept and listed in the order of the calls: after N such saves the
    listing has N records. *)
Theorem distinct_saves_listed_in_call_order :
  forall calls : list Trace.save_call,
    NoDup (map Trace.save_id calls) ->
    Storage.get_all_results (Trace.save_all calls Storage.init)
    = map Trace.saved_record calls
    /\ List.length (Storage.get_all_results (Trace.save_all calls Storage.init))
       = List.length calls.
Proof.
  intros calls Hn.
  assert (E : Storage.get_all_results (Trace.save_all calls Storage.init)
              = map Trace.saved_record calls).
  { rewrite save_all_fresh_ids; [reflexivity|assumption|reflexivity]. }
  split; [exact E|]. rewrite E. apply length_map.
Qed.

Lemma distinct_saves_listed_in_call_order_witness :
  let calls := [Trace.mkSave "a" 1 "first" (VDict []) "summarize";
                Trace.mkSave "b" 2 "second" (VDict []) "entities"] in
  NoDup (map Trace.save_id calls) /\
  Storage.get_all_results (Trace.save_all calls Storage.init)
  = [Storage.mkRecord "a" "first" (VDict []) "summarize" 1;
     Storage.mkRecord "b" "second" (VDict []) "entities" 2].
Proof.
  intros calls.
  assert (H : NoDup (map Trace.save_id calls)).
  { repeat constructor; simpl; intuition discriminate. }
  split; [exact H|].
  exact (proj1 (@distinct_saves_listed_in_call_order calls H)).
Defined.

(* ================================================================== *)
(** ** Reporting Engine: counts, totals, averages *)

Section CountingTotals.
Variables (K : Type) (keq : K -> K -> bool).
Hypothesis keq_refl : forall k, keq k k = true.

(** One turn of the counting idiom adds one to the sum of the counts. *)
Lemma count_step_total (d d' : dict K Z) (k : K) :
  BusinessLogic.count_step keq d k = Ok d' ->
  Measure.total (fun n => n) d' = Measure.total (fun n => n) d + 1.
Proof.
  unfold BusinessLogic.count_step, dict_mem, dict_getitem.
  destruct (dict_get keq k d) as [n|] eqn:G.
  - rewrite G. simpl. intros H. inversion H; subst.
    rewrite total_dict_set, G. lia.
  - rewrite (dict_get_set_same keq keq_refl). simpl.
    intros H. inversion H; subst.
    rewrite !total_dict_set, G, (dict_get_set_same keq keq_refl). lia.
Qed.

Variables (A : Type) (key : A -> result K).

Lemma count_loop_total (l : list A) :
  forall d d',
    for_each (fun d r => k <- key r ;; BusinessLogic.count_step keq d k) l d
    = Ok d' ->
    Measure.total (fun n => n) d'
    = Measure.total (fun n => n) d + Z.of_nat (List.length l).
Proof.
  induction l as [|a l IH]; intros d d'.
  - simpl. intros H. inversion H; subst. lia.
  - simpl for_each. destruct (key a) as [ka|]; [|discriminate]. simpl bind.
    destruct (BusinessLogic.count_step keq d ka) as [d1|] eqn:S1;
      [|discriminate].
    simpl bind. intros H. rewrite (IH _ _ H), (count_step_total _ _ S1).
    simpl List.length. lia.
Qed.

(** The loop raises as soon as the key of a record cannot be computed:
    with such a record in the list, it does not return. *)
Lemma count_loop_fails (l : list A) :
  Exists (fun r => is_ok (key r) = false) l ->
  forall d, exists r e,
    In r l /\ key r = Err e /\
    for_each (fun d r => k <- key r ;; BusinessLogic.count_step keq d k) l d
    = Err e.
Proof.
  intros H. induction l as [|a l IH]; intros d.
  - inversion H.
  - simpl for_each. destruct (key a) as [ka|e] eqn:Ka.
    + simpl bind.
      destruct (BusinessLogic.count_step keq d ka) as [d1|e1] eqn:S1.
      * simpl bind.
        assert (Hl : Exists (fun r => is_ok (key r) = false) l).
        { inversion H as [? ? Ha|]; subst; [|assumption].
          rewrite Ka in Ha. discriminate. }
        destruct (IH Hl d1) as (r & e & Hin & Hr & Hf).
        exists r, e. repeat split; auto. now right.
      * exfalso. revert S1.
        unfold BusinessLogic.count_step, dict_mem, dict_getitem.
        destruct (dict_get keq ka d) as [n|] eqn:G.
        -- rewrite G. discriminate.
        -- rewrite (dict_get_set_same keq keq_refl). discriminate.
    + exists a, e. repeat split; auto. now left.
Qed.
End CountingTotals.

(* ================================================================== *)
(** ** Strings and rounding, continued *)

Lemma string_app_assoc (a b c : string) : (a ++ b) ++ c = a ++ (b ++ c).
Proof. induction a as [|x a IH]; simpl; [reflexivity|now rewrite IH]. Qed.

Lemma string_app_nil_r (a : string) : a ++ "" = a.
Proof. induction a as [|x a IH]; simpl; [reflexivity|now rewrite IH]. Qed.

Lemma rev_string_acc (s : string) :
  forall acc, rev_string s acc = rev_string s "" ++ acc.
Proof.
  induction s as [|c s IH]; intros acc; simpl; [reflexivity|].
  rewrite (IH (String c acc)), (IH (String c "")), string_app_assoc.
  reflexivity.
Qed.

Lemma rev_string_app (a b : string) :
  rev_string (a ++ b) "" = rev_string b "" ++ rev_string a "".
Proof.
  induction a as [|c a IH]; simpl.
  - now rewrite string_app_nil_r.
  - rewrite (rev_string_acc (a ++ b) (String c "")), IH,
      (rev_string_acc a (String c "")), string_app_assoc. reflexivity.
Qed.

Lemma rev_string_involutive (s : string) :
  rev_string (rev_string s "") "" = s.
Proof.
  induction s as [|c s IH]; simpl; [reflexivity|].
  rewrite (rev_string_acc s (String c "")), rev_string_app, IH. reflexivity.
Qed.

Lemma all_space_app (a b : string) :
  Measure.all_space (a ++ b) = Measure.all_space a && Measure.all_space b.
Proof.
  induction a as [|c a IH]; simpl; [reflexivity|].
  now rewrite IH, andb_assoc.
Qed.

Lemma all_space_rev (a : string) :
  Measure.all_space (rev_string a "") = Measure.all_space a.
Proof.
  induction a as [|c a IH]; simpl; [reflexivity|].
  rewrite (rev_string_acc a (String c "")), all_space_app, IH. simpl.
  rewrite andb_true_r. apply andb_comm.
Qed.

Lemma lstrip_spec (s : string) :
  (exists pre, s = pre ++ lstrip s /\ Measure.all_space pre = true)
  /\ Measure.starts_with_space (lstrip s) = false.
Proof.
  induction s as [|c s [(pre & E & Hp) Hs]]; simpl.
  - split; [exists ""; auto|reflexivity].
  - destruct (isspace c) eqn:C.
    + split; [|assumption]. exists (String c pre). simpl.
      rewrite C, Hp, <- E. auto.
    + split; [exists ""; auto|]. simpl. exact C.
Qed.

Lemma strip_spec (s : string) :
  (exists pre post,
     s = pre ++ strip s ++ post /\
     Measure.all_space pre = true /\ Measure.all_space post = true)
  /\ Measure.starts_with_space (strip s) = false
  /\ Measure.ends_with_space (strip s) = false.
Proof.
  unfold strip, Measure.ends_with_space.
  destruct (lstrip_spec s) as [(pre & E & Hpre) Hs].
  set (t := lstrip s) in *.
  destruct (lstrip_spec (rev_string t "")) as [(p2 & E2 & Hp2) Hu].
  set (u := lstrip (rev_string t "")) in *.
  assert (Et : t = rev_string u "" ++ rev_string p2 "").
  { rewrite <- rev_string_app, <- E2. symmetry. apply rev_string_involutive. }
  split; [|split].
  - exists pre, (rev_string p2 ""). rewrite <- Et, all_space_rev. auto.
  - destruct (rev_string u "") as [|c w] eqn:R; [reflexivity|].
    rewrite Et in Hs. exact Hs.
  - rewrite rev_string_involutive. exact Hu.
Qed.


(* ================================================================== *)
(** ** Reporting Engine: statistics *)

Lemma processing_stats_unfold (st : Storage.store) (counts : dict string Z) :
  for_each (fun d r => BusinessLogic.count_step String.eqb d (Storage.task_type r))
    (Storage.get_all_results st) [] = Ok counts ->
  BusinessLogic.get_processing_stats st
  = Ok (VDict
          [("total_processed",
            VInt (Z.of_nat (List.length (Storage.get_all_results st))));
           ("by_task_type", BusinessLogic.int_dict counts);
           ("average_text_length",
            match Storage.get_all_results st with
            | [] => VInt 0
            | _ :: _ =>
                VFloat
                  (round_float
                     (inject_Z
                        (BusinessLogic.sum_Z
                           (map (fun r => len_str (Storage.original_text r))
                                (Storage.get_all_results st)))
                      / inject_Z
                          (Z.of_nat (List.length (Storage.get_all_results st))))
                     2)
            end)]).
Proof.
  intros H. unfold BusinessLogic.get_processing_stats. rewrite H.
  simpl bind at 1.
  destruct (Storage.get_all_results st) as [|r l]; [reflexivity|].
  unfold truediv.
  replace (Z.of_nat (List.length (r :: l)) =? 0) with false
    by (symmetry; apply Z.eqb_neq; simpl List.length; lia).
  reflexivity.
Qed.

(** X6: [get_processing_stats] reports, for every task type, the number of
    stored records of that type (a type without records has no entry),
    and the reported counts add up to total_processed. *)
Theorem processing_stats_counts_by_task :
  forall st : Storage.store,
    let results := Storage.get_all_results st in
    exists counts average,
      BusinessLogic.get_processing_stats st
      = Ok (VDict [("total_processed", VInt (Z.of_nat (List.length results)));
                   ("by_task_type", BusinessLogic.int_dict counts);
                   ("average_text_length", average)])
      /\ (forall t,
            dict_get String.eqb t counts =
            let c := Z.of_nat
                       (List.length
                          (filter (fun r => (t =? Storage.task_type r)%string)
                                  results)) in
            if c =? 0 then None else Some c)
      /\ Measure.total (fun n => n) counts = Z.of_nat (List.length results).
Proof.
  intros st results.
  destruct (@count_loop_spec string String.eqb String.eqb_refl String.eqb_sym
              string_eqb_trans Storage.record
              (fun r => Ok (Storage.task_type r)) results)
    with (d := @nil (string * Z)) as (counts & Hc & G).
  { apply Forall_forall. reflexivity. }
  exists counts. eexists. split; [|split].
  - apply processing_stats_unfold. exact Hc.
  - intros t. rewrite G. simpl. unfold Spec.count_key.
    destruct (_ =? 0); reflexivity.
  - rewrite (count_loop_total String.eqb String.eqb_refl _ _ _ Hc).
    reflexivity.
Qed.

Lemma sum_lengths_between (lo hi : Z) (l : list Storage.record) :
  Forall (fun r => lo <= len_str (Storage.original_text r) <= hi) l ->
  lo * Z.of_nat (List.length l)
  <= BusinessLogic.sum_Z (map (fun r => len_str (Storage.original_text r)) l)
  <= hi * Z.of_nat (List.length l).
Proof.
  induction 1 as [|r l Hr Hl IH]; simpl BusinessLogic.sum_Z; simpl List.length.
  - lia.
  - rewrite Nat2Z.inj_succ. lia.
Qed.

Lemma round_float_between (q : Q) (n : positive) (lo hi : Z) :
  (inject_Z lo <= q)%Q -> (q <= inject_Z hi)%Q ->
  (inject_Z lo <= round_float q n)%Q /\ (round_float q n <= inject_Z hi)%Q.
Proof.
  unfold round_float. set (s := Pos.pow 10 n).
  pose proof (round_half_even_bound (q * inject_Z (Zpos s))) as B.
  set (k := round_half_even (q * inject_Z (Zpos s))) in *.
  destruct q as [a d]. cbn [Qnum Qden Qmult inject_Z] in B.
  unfold Qle. cbn [Qnum Qden inject_Z]. rewrite ?Pos2Z.inj_mul in *.
  assert (Hs : 0 < Zpos s) by lia. assert (Hd : 0 < Zpos d) by lia.
  set (S := Zpos s) in *. set (D := Zpos d) in *.
  clearbody S D k. intros H0 H1. split; nia.
Qed.

(** X7: On a store with at least one record the reported average text
    length is a float between the length of the shortest and the length
    of the longest stored text; when all stored texts have the same
    length it is that length. *)
Theorem processing_stats_average_between_extremes :
  forall (st : Storage.store) (lo hi : Z),
    let results := Storage.get_all_results st in
    results <> [] ->
    Forall (fun r => lo <= len_str (Storage.original_text r) <= hi) results ->
    exists counts average,
      BusinessLogic.get_processing_stats st
      = Ok (VDict [("total_processed", VInt (Z.of_nat (List.length results)));
                   ("by_task_type", BusinessLogic.int_dict counts);
                   ("average_text_length", VFloat average)])
      /\ (inject_Z lo <= average)%Q /\ (average <= inject_Z hi)%Q.
Proof.
  intros st lo hi results Hne Hb.
  destruct (task_counts_ok results) as (counts & Hc).
  pose proof (sum_lengths_between Hb) as Hs.
  set (total := BusinessLogic.sum_Z
                  (map (fun r => len_str (Storage.original_text r)) results))
    in *.
  set (n := Z.of_nat (List.length results)) in *.
  assert (Hn : 0 < n).
  { unfold n. destruct results; [contradiction|]. simpl List.length. lia. }
  assert (Hq : (0 < inject_Z n)%Q).
  { change 0%Q with (inject_Z 0). rewrite <- Zlt_Qlt. exact Hn. }
  exists counts, (round_float (inject_Z total / inject_Z n) 2).
  split.
  - rewrite (processing_stats_unfold st Hc). fold results. fold total. fold n.
    destruct results; [contradiction|reflexivity].
  - apply round_float_between.
    + apply Qle_shift_div_l; [exact Hq|].
      rewrite <- inject_Z_mult, <- Zle_Qle. lia.
    + apply Qle_shift_div_r; [exact Hq|].
      rewrite <- inject_Z_mult, <- Zle_Qle. lia.
Qed.

Lemma processing_stats_average_between_extremes_witness :
  let st : Storage.store :=
    [("a", Storage.mkRecord "a" "abcd" (VDict []) "summarize" 1);
     ("b", Storage.mkRecord "b" "abc" (VDict []) "entities" 2);
     ("c", Storage.mkRecord "c" "abc" (VDict []) "entities" 3)] in
  (Storage.get_all_results st <> [] /\
   Forall (fun r => 3 <= len_str (Storage.original_text r) <= 4)
          (Storage.get_all_results st))
  /\ exists counts average,
       BusinessLogic.get_processing_stats st
       = Ok (VDict [("total_processed", VInt 3);
                    ("by_task_type", BusinessLogic.int_dict counts);
                    ("average_text_length", VFloat average)])
       /\ (inject_Z 3 <= average)%Q /\ (average <= inject_Z 4)%Q.
Proof.
  intros st.
  assert (H : Storage.get_all_results st <> []) by discriminate.
  assert (B : Forall (fun r => 3 <= len_str (Storage.original_text r) <= 4)
                     (Storage.get_all_results st)).
  { repeat constructor; vm_compute; discriminate. }
  split; [split; [exact H|exact B]|].
  exact (@processing_stats_average_between_extremes st 3 4 H B).
Defined.

(* ================================================================== *)
(** ** Reporting Engine: sentiment distribution and recent activity *)

Lemma sentiment_key_errors (r : Storage.record) (e : exn) :
  BusinessLogic.sentiment_key r = Err e -> e = AttributeError \/ e = TypeError.
Proof.
  unfold BusinessLogic.sentiment_key, py_get.
  destruct (Storage.processed_result r) as [| | | | | |d]; simpl;
    try (intros H; inversion H; auto; fail).
  destruct (dict_get_default String.eqb "sentiment" (VStr "UNKNOWN") d);
    simpl; try discriminate; intros H; inversion H; auto.
Qed.

(** X8: When every sentiment record holds a dict with a hashable label, the
    counts of the distribution add up to the number of sentiment records:
    each of them is counted once. *)
Theorem sentiment_distribution_counts_every_record :
  forall st : Storage.store,
    Forall (fun r => is_ok (BusinessLogic.sentiment_key r) = true)
           (Spec.sentiment_records st) ->
    exists distribution,
      BusinessLogic.get_sentiment_distribution st = Ok distribution /\
      Measure.total (fun n => n) distribution
      = Z.of_nat (List.length (Spec.sentiment_records st)).
Proof.
  intros st H.
  destruct (@count_loop_spec hashable key_eqb key_eqb_refl key_eqb_sym
              key_eqb_trans Storage.record BusinessLogic.sentiment_key
              (Spec.sentiment_records st) H []) as (d & Hd & _).
  exists d. split; [exact Hd|].
  rewrite (count_loop_total key_eqb key_eqb_refl _ _ _ Hd). reflexivity.
Qed.

Lemma sentiment_distribution_counts_every_record_witness :
  let st : Storage.store :=
    [("a", Storage.mkRecord "a" "good" (VDict [("sentiment", VStr "POSITIVE")])
             "sentiment" 0);
     ("b", Storage.mkRecord "b" "text" (VDict [("summary", VStr "text")])
             "summarize" 1);
     ("c", Storage.mkRecord "c" "fine" (VDict [("sentiment", VStr "POSITIVE")])
             "sentiment" 2)] in
  Forall (fun r => is_ok (BusinessLogic.sentiment_key r) = true)
         (Spec.sentiment_records st)
  /\ exists distribution,
       BusinessLogic.get_sentiment_distribution st = Ok distribution /\
       Measure.total (fun n => n) distribution = 2.
Proof.
  intros st.
  assert (H : Forall (fun r => is_ok (BusinessLogic.sentiment_key r) = true)
                     (Spec.sentiment_records st))
    by (repeat constructor).
  split; [exact H|].
  exact (@sentiment_distribution_counts_every_record st H).
Defined.

Lemma non_dict_record_breaks_distribution :
  forall (st : Storage.store) (r : Storage.record),
    In r (Storage.get_all_results st) ->
    Storage.task_type r = "sentiment" ->
    Measure.is_dict (Storage.processed_result r) = false ->
    exists e,
      BusinessLogic.get_sentiment_distribution st = Err e /\
      (e = AttributeError \/ e = TypeError).
Proof.
  intros st r Hin Ht Hd.
  assert (Hex : Exists (fun r => is_ok (BusinessLogic.sentiment_key r) = false)
                       (Spec.sentiment_records st)).
  { apply Exists_exists. exists r. split.
    - unfold Spec.sentiment_records. apply filter_In. split; [assumption|].
      rewrite Ht. reflexivity.
    - unfold BusinessLogic.sentiment_key, py_get.
      destruct (Storage.processed_result r); try reflexivity. discriminate. }
  destruct (count_loop_fails key_eqb key_eqb_refl BusinessLogic.sentiment_key
              Hex []) as (r' & e & _ & Hr' & Hf).
  exists e. split; [exact Hf|]. exact (sentiment_key_errors _ Hr').
Qed.

(** X9: One stored sentiment record whose processed_result is not a dict (a
    JSON list, string, number or null) makes [get_sentiment_distribution]
    raise, [AttributeError] or [TypeError], whatever else the store
    holds. *)
Theorem sentiment_distribution_raises_on_non_dict_result :
  forall (st : Storage.store) (r : Storage.record),
    In r (Storage.get_all_results st) ->
    Storage.task_type r = "sentiment" ->
    Measure.is_dict (Storage.processed_result r) = false ->
    exists e,
      BusinessLogic.get_sentiment_distribution st = Err e /\
      (e = AttributeError \/ e = TypeError).
Proof.
  intros st r Hin Ht Hd.
  exact (@non_dict_record_breaks_distribution st r Hin Ht Hd).
Qed.

Lemma sentiment_distribution_raises_on_non_dict_result_witness :
  let bad := Storage.mkRecord "b" "meh" (VList []) "sentiment" 2 in
  let st : Storage.store :=
    [("a", Storage.mkRecord "a" "good" (VDict [("sentiment", VStr "POSITIVE")])
             "sentiment" 1);
     ("b", bad)] in
  In bad (Storage.get_all_results st) /\
  exists e,
    BusinessLogic.get_sentiment_distribution st = Err e /\
    (e = AttributeError \/ e = TypeError).
Proof.
  intros bad st.
  assert (H : In bad (Storage.get_all_results st)) by (right; left; reflexivity).
  split; [exact H|].
  exact (@sentiment_distribution_raises_on_non_dict_result st bad H
           eq_refl eq_refl).
Defined.

(** X10: With [now] a datetime, [get_recent_activity] raises [OverflowError]
    exactly when now - hours falls outside the datetime range; otherwise
    it returns. *)
Theorem recent_activity_raises_iff_cutoff_out_of_range :
  forall (now : datetime) (st : Storage.store) (hours : Z),
    datetime_valid now = true ->
    (BusinessLogic.get_recent_activity now st hours = Err OverflowError
     <-> datetime_valid (now - hours * 3600 * 1000000) = false)
    /\ (is_ok (BusinessLogic.get_recent_activity now st hours) = true
        <-> datetime_valid (now - hours * 3600 * 1000000) = true).
Proof.
  intros now st hours Hnow.
  destruct (datetime_valid (now - hours * 3600 * 1000000)) eqn:Hcut.
  - assert (E : exists l, BusinessLogic.get_recent_activity now st hours = Ok l).
    { unfold BusinessLogic.get_recent_activity.
      rewrite (@timedelta_hours_in_range now hours Hnow Hcut). simpl.
      unfold datetime_sub. rewrite Hcut. eexists; reflexivity. }
    destruct E as [l ->]. split; split; auto; discriminate.
  - assert (E : BusinessLogic.get_recent_activity now st hours
                = Err OverflowError).
    { unfold BusinessLogic.get_recent_activity, timedelta_hours.
      destruct (_ || _); [reflexivity|]. simpl.
      unfold datetime_sub. rewrite Hcut. reflexivity. }
    rewrite E. split; split; auto; discriminate.
Qed.

Lemma recent_activity_raises_iff_cutoff_out_of_range_witness :
  let now := 63929304000000000 in
  datetime_valid now = true /\
  BusinessLogic.get_recent_activity now [] (-70000000) = Err OverflowError.
Proof.
  intros now. split; [reflexivity|].
  exact (proj2 (proj1 (@recent_activity_raises_iff_cutoff_out_of_range now []
                         (-70000000) eq_refl)) eq_refl).
Defined.

Lemma filter_narrow (A : Type) (p q : A -> bool) (l : list A) :
  (forall x, p x = true -> q x = true) ->
  filter p l = filter p (filter q l).
Proof.
  intros H. induction l as [|x l IH]; simpl; [reflexivity|].
  destruct (p x) eqn:P.
  - rewrite (H x P). simpl. now rewrite P, IH.
  - destruct (q x); simpl; [now rewrite P|assumption].
Qed.

(** X11: A wider window returns at least what a narrower one returns: the
    activity of the last h1 hours is the activity of the last h2 hours,
    h1 <= h2, restricted to the records after the narrower cutoff, in the
    same order. *)
Theorem recent_activity_window_nesting :
  forall (now : datetime) (st : Storage.store) (h1 h2 : Z),
    datetime_valid now = true ->
    datetime_valid (now - h1 * 3600 * 1000000) = true ->
    datetime_valid (now - h2 * 3600 * 1000000) = true ->
    h1 <= h2 ->
    exists l1 l2,
      BusinessLogic.get_recent_activity now st h1 = Ok l1 /\
      BusinessLogic.get_recent_activity now st h2 = Ok l2 /\
      l1 = filter (fun r => now - h1 * 3600 * 1000000 <? Storage.created_at r) l2
      /\ incl l1 l2.
Proof.
  intros now st h1 h2 Hnow H1 H2 Hle.
  assert (E : forall h, datetime_valid (now - h * 3600 * 1000000) = true ->
              BusinessLogic.get_recent_activity now st h
              = Ok (filter (fun r => now - h * 3600 * 1000000
                                     <? Storage.created_at r)
                           (Storage.get_all_results st))).
  { intros h Hh. unfold BusinessLogic.get_recent_activity.
    rewrite (@timedelta_hours_in_range now h Hnow Hh). simpl.
    unfold datetime_sub. rewrite Hh. reflexivity. }
  eexists. eexists. split; [exact (E h1 H1)|]. split; [exact (E h2 H2)|].
  assert (N : filter (fun r => now - h1 * 3600 * 1000000 <? Storage.created_at r)
                     (Storage.get_all_results st)
              = filter (fun r => now - h1 * 3600 * 1000000 <? Storage.created_at r)
                  (filter (fun r => now - h2 * 3600 * 1000000
                                    <? Storage.created_at r)
                          (Storage.get_all_results st))).
  { apply filter_narrow. intros r. rewrite !Z.ltb_lt. lia. }
  split; [exact N|].
  rewrite N. intros r Hr. apply filter_In in Hr. tauto.
Qed.

Lemma recent_activity_window_nesting_witness :
  let now := 63929304000000000 in
  let old := Storage.mkRecord "a" "old" (VDict []) "summarize"
               (now - 3 * 3600 * 1000000) in
  let new := Storage.mkRecord "b" "new" (VDict []) "entities"
               (now - 1800 * 1000000) in
  (datetime_valid now = true /\ 1 <= 24) /\
  exists l1 l2,
    BusinessLogic.get_recent_activity now [("a", old); ("b", new)] 1 = Ok l1 /\
    BusinessLogic.get_recent_activity now [("a", old); ("b", new)] 24 = Ok l2 /\
    l1 = filter (fun r => now - 1 * 3600 * 1000000 <? Storage.created_at r) l2
    /\ incl l1 l2.
Proof.
  intros now old new.
  assert (H : 1 <= 24) by lia.
  split; [split; [reflexivity|exact H]|].
  exact (@recent_activity_window_nesting now [("a", old); ("b", new)] 1 24
           eq_refl eq_refl eq_refl H).
Defined.

(** X12: A record just saved shows up in the recent activity of every window
    that reaches back before its timestamp. *)
Theorem saved_record_is_recent_activity :
  forall (st : Storage.store) (uuid : string) (timestamp : datetime)
         (text : string) (pr : value) (task : string)
         (now : datetime) (hours : Z),
    datetime_valid now = true ->
    datetime_valid (now - hours * 3600 * 1000000) = true ->
    now - hours * 3600 * 1000000 < timestamp ->
    exists l,
      BusinessLogic.get_recent_activity now
        (snd (Storage.save_result uuid timestamp st text pr task)) hours = Ok l
      /\ In (fst (Storage.save_result uuid timestamp st text pr task)) l.
Proof.
  intros st uuid timestamp text pr task now hours Hnow Hcut Hlt.
  unfold BusinessLogic.get_recent_activity.
  rewrite (@timedelta_hours_in_range now hours Hnow Hcut). simpl.
  unfold datetime_sub. rewrite Hcut. simpl. eexists. split; [reflexivity|].
  apply filter_In. split.
  - apply (@dict_get_In string Storage.record String.eqb uuid).
    apply dict_get_set_same. exact String.eqb_refl.
  - simpl. now apply Z.ltb_lt.
Qed.

Lemma saved_record_is_recent_activity_witness :
  let now := 63929304000000000 in
  (datetime_valid now = true /\ now - 1 * 3600 * 1000000 < now - 5) /\
  exists l,
    BusinessLogic.get_recent_activity now
      (snd (Storage.save_result "a" (now - 5) [] "hello" (VDict []) "summarize"))
      1 = Ok l
    /\ In (Storage.mkRecord "a" "hello" (VDict []) "summarize" (now - 5)) l.
Proof.
  intros now.
  assert (H : now - 1 * 3600 * 1000000 < now - 5) by (unfold now; lia).
  split; [split; [reflexivity|exact H]|].
  exact (@saved_record_is_recent_activity [] "a" (now - 5) "hello" (VDict [])
           "summarize" now 1 eq_refl eq_refl H).
Defined.

(* ================================================================== *)
(** ** Text-Analysis Provider: calls, failures, result shapes *)

(** X13: Whatever the provider, the task and the backend's answers,
    [process_text] calls the backend at most once: nothing is retried. *)
Theorem process_text_calls_backend_at_most_once :
  forall (json_loads : string -> option value) (p : LLMService.provider)
         (text task : string) (b : LLMService.backend),
    (List.length
       (LLMService.calls b (LLMService.process_text json_loads p text task))
     <= 1)%nat.
Proof.
  intros jl p text task b.
  unfold LLMService.process_text, LLMService.summarize_text,
    LLMService.extract_entities, LLMService.analyze_sentiment.
  destruct (task =? "summarize")%string;
    [|destruct (task =? "entities")%string;
      [|destruct (task =? "sentiment")%string]];
    try destruct (_ <? 30); destruct p; simpl; try lia;
    match goal with
    | |- context [b ?r] => destruct (b r) as [x|e]
    end; simpl; try lia;
    try (destruct x; simpl; lia);
    try (destruct (jl x); simpl; lia).
Qed.

(** X14: A failure of the backend reaches the caller of [process_text] as it
    is, for every known task, unless the task is summarize on a text of
    fewer than 30 words, which does not need the backend. *)
Theorem backend_failure_reaches_caller :
  forall (json_loads : string -> option value) (p : LLMService.provider)
         (text task : string) (b : LLMService.backend) (e : exn),
    (forall r, b r = Err e) ->
    In task Main.valid_tasks ->
    (task = "summarize" -> 30 <= Measure.word_count text) ->
    LLMService.run b (LLMService.process_text json_loads p text task) = Err e.
Proof.
  intros jl p text task b e Hb Hin Hlong.
  unfold LLMService.process_text, LLMService.summarize_text,
    LLMService.extract_entities, LLMService.analyze_sentiment.
  simpl in Hin. destruct Hin as [<-|[<-|[<-|[]]]]; simpl.
  - specialize (Hlong eq_refl). unfold Measure.word_count in Hlong.
    replace (_ <? 30) with false by (symmetry; apply Z.ltb_ge; exact Hlong).
    destruct p; simpl; now rewrite Hb.
  - destruct p; simpl; now rewrite Hb.
  - destruct p; simpl; now rewrite Hb.
Qed.

Lemma backend_failure_reaches_caller_witness :
  (In "entities" Main.valid_tasks /\
   ("entities" = "summarize" -> 30 <= Measure.word_count "Paris"))
  /\ LLMService.run Double.failing_backend
       (LLMService.process_text (fun _ => None) LLMService.HuggingFace
          "Paris" "entities")
     = Err (BackendError "connection refused").
Proof.
  assert (H1 : In "entities" Main.valid_tasks) by (right; left; reflexivity).
  assert (H2 : "entities" = "summarize" -> 30 <= Measure.word_count "Paris")
    by discriminate.
  split; [split; [exact H1|exact H2]|].
  exact (@backend_failure_reaches_caller (fun _ => None) LLMService.HuggingFace
           "Paris" "entities" Double.failing_backend
           (BackendError "connection refused") (fun _ => eq_refl) H1 H2).
Defined.

(** X15: On a text of 30 words or more [summarize_text] calls the backend
    exactly once, and a result it returns has a summary and no note: the
    note marks the texts that were not summarized, and only them. *)
Theorem summarize_long_text_calls_backend_once :
  forall (p : LLMService.provider) (text : string) (b : LLMService.backend),
    30 <= Measure.word_count text ->
    List.length (LLMService.calls b (LLMService.summarize_text p text)) = 1%nat
    /\ forall v,
         LLMService.run b (LLMService.summarize_text p text) = Ok v ->
         Measure.has_key "summary" v = true /\ Measure.has_key "note" v = false.
Proof.
  intros p text b H. unfold LLMService.summarize_text.
  unfold Measure.word_count in H.
  replace (_ <? 30) with false by (symmetry; apply Z.ltb_ge; exact H).
  destruct p; simpl.
  - destruct (b _) as [content|e]; simpl.
    + split; [reflexivity|]. intros v Hv. inversion Hv; subst. auto.
    + split; [reflexivity|]. discriminate.
  - destruct (b _) as [[|s l]|e]; simpl.
    + split; [reflexivity|]. discriminate.
    + split; [reflexivity|]. intros v Hv. inversion Hv; subst. auto.
    + split; [reflexivity|]. discriminate.
Qed.

(** X16: On a text of 30 words or more the openai variant returns as summary
    the chat answer with the whitespace at both ends removed: the answer
    is leading whitespace, the summary, trailing whitespace, and the
    summary neither starts nor ends with whitespace. *)
Theorem summarize_openai_returns_trimmed_answer :
  forall (text content : string) (b : LLMService.backend),
    30 <= Measure.word_count text ->
    b (Measure.summarize_request text) = Ok content ->
    exists summary leading trailing,
      LLMService.run b (LLMService.summarize_text LLMService.OpenAI text)
      = Ok (VDict [("summary", VStr summary)]) /\
      content = leading ++ summary ++ trailing /\
      Measure.all_space leading = true /\
      Measure.all_space trailing = true /\
      Measure.starts_with_space summary = false /\
      Measure.ends_with_space summary = false.
Proof.
  intros text content b H Hb. unfold LLMService.summarize_text.
  unfold Measure.word_count in H.
  replace (_ <? 30) with false by (symmetry; apply Z.ltb_ge; exact H).
  change (LLMService.ChatCompletionsCreate _ _ _ _)
    with (Measure.summarize_request text).
  erewrite run_call by exact Hb. simpl.
  destruct (strip_spec content) as [(pre & post & E & Hpre & Hpost) [Hs He]].
  exists (strip content), pre, post. auto 7.
Qed.

Lemma summarize_openai_returns_trimmed_answer_witness :
  let text :=
    "one two three four five six seven eight nine ten one two three four five six seven eight nine ten one two three four five six seven eight nine ten" in
  (30 <= Measure.word_count text /\
   Double.chat_backend "  Ten numbers, three times. "
     (Measure.summarize_request text) = Ok "  Ten numbers, three times. ")
  /\ exists summary leading trailing,
       LLMService.run (Double.chat_backend "  Ten numbers, three times. ")
         (LLMService.summarize_text LLMService.OpenAI text)
       = Ok (VDict [("summary", VStr summary)]) /\
       "  Ten numbers, three times. " = leading ++ summary ++ trailing /\
       Measure.all_space leading = true /\
       Measure.all_space trailing = true /\
       Measure.starts_with_space summary = false /\
       Measure.ends_with_space summary = false.
Proof.
  intros text.
  assert (H : 30 <= Measure.word_count text) by (vm_compute; discriminate).
  split; [split; [exact H|reflexivity]|].
  exact (@summarize_openai_returns_trimmed_answer text
           "  Ten numbers, three times. "
           (Double.chat_backend "  Ten numbers, three times. ") H eq_refl).
Defined.

Lemma summarize_long_text_calls_backend_once_witness :
  let text :=
    "one two three four five six seven eight nine ten one two three four five six seven eight nine ten one two three four five six seven eight nine ten" in
  30 <= Measure.word_count text /\
  List.length
    (LLMService.calls (Double.pipeline_backend ["Ten numbers."] [] [])
       (LLMService.summarize_text LLMService.HuggingFace text)) = 1%nat.
Proof.
  intros text.
  assert (H : 30 <= Measure.word_count text) by (vm_compute; discriminate).
  split; [exact H|].
  exact (proj1 (@summarize_long_text_calls_backend_once LLMService.HuggingFace
                  text (Double.pipeline_backend ["Ten numbers."] [] []) H)).
Defined.



Lemma group_step_total (g : dict string (list value)) (e : LLMService.ner_item) :
  Measure.total (fun l => Z.of_nat (List.length l)) (LLMService.group_step g e)
  = Measure.total (fun l => Z.of_nat (List.length l)) g + 1.
Proof.
  unfold LLMService.group_step, dict_mem, dict_get_default.
  destruct (dict_get String.eqb (LLMService.entity e) g) as [l|] eqn:G.
  - rewrite total_dict_set, G, length_app. simpl List.length. lia.
  - rewrite (dict_get_set_same String.eqb String.eqb_refl).
    rewrite !total_dict_set, G,
      (dict_get_set_same String.eqb String.eqb_refl).
    simpl List.length. lia.
Qed.

(** X18: The grouping of the huggingface variant keeps every mention: the
    sizes of the buckets add up to the number of items the NER pipeline
    returned. *)
Theorem group_entities_keeps_every_mention :
  forall entities : list LLMService.ner_item,
    Measure.total (fun l => Z.of_nat (List.length l))
      (LLMService.group_entities entities)
    = Z.of_nat (List.length entities).
Proof.
  intros entities.
  unfold LLMService.group_entities.
  assert (G : forall g,
             Measure.total (fun l => Z.of_nat (List.length l))
               (fold_left LLMService.group_step entities g)
             = Measure.total (fun l => Z.of_nat (List.length l)) g
               + Z.of_nat (List.length entities)).
  { induction entities as [|e entities IH]; intros g; simpl fold_left.
    - simpl. lia.
    - rewrite IH, group_step_total. simpl List.length. lia. }
  rewrite G. reflexivity.
Qed.

(* ================================================================== *)
(** ** Construction of the service *)

(** X19: [LLMService.__init__] returns a service only for the provider names
    openai and huggingface, compared after lowercasing (huggingface when
    the variable is unset): the openai variant when the package is
    installed and the API key is set and not empty, the huggingface
    variant when the package is installed and the pipelines load.  Any
    other name is refused with a [ValueError] that names it. *)
Theorem init_accepts_two_provider_names :
  forall env : Startup.environment,
    let name :=
      Startup.lower (match Startup.LLM_PROVIDER env with
                     | Some n => n
                     | None => "huggingface"
                     end) in
    (forall p,
       Startup.init env = inr p <->
       (name = "openai" /\ p = LLMService.OpenAI /\
        Startup.openai_installed env = true /\
        exists key, Startup.OPENAI_API_KEY env = Some key /\ key <> "")
       \/ (name = "huggingface" /\ p = LLMService.HuggingFace /\
           Startup.transformers_installed env = true /\
           Startup.pipelines_failure env = None))
    /\ (name <> "openai" -> name <> "huggingface" ->
        Startup.init env
        = inl (Startup.ConfigValueError ("Unsupported LLM provider: " ++ name))).
Proof.
  intros env name. unfold Startup.init. fold name. split.
  - intros p.
    destruct (name =? "openai")%string eqn:E1;
      [|destruct (name =? "huggingface")%string eqn:E2].
    + apply String.eqb_eq in E1. rewrite E1. unfold Startup._init_openai.
      split.
      * intros H. left.
        destruct (Startup.openai_installed env); [|discriminate].
        destruct (Startup.OPENAI_API_KEY env) as [[|c key]|];
          try discriminate.
        inversion H; subst. repeat split; auto.
        eexists; split; [reflexivity|discriminate].
      * intros [(_ & -> & -> & key & -> & Hne)|(Hn & _)]; [|discriminate].
        destruct key; [contradiction|reflexivity].
    + apply String.eqb_eq in E2. rewrite E2. unfold Startup._init_huggingface.
      split.
      * intros H. right.
        destruct (Startup.transformers_installed env); [|discriminate].
        destruct (Startup.pipelines_failure env) as [[|msg]|];
          try discriminate.
        inversion H; subst. auto.
      * intros [(Hn & _)|(_ & -> & -> & ->)]; [discriminate|reflexivity].
    + apply String.eqb_neq in E1, E2. split; [discriminate|].
      intros [(Hn & _)|(Hn & _)]; contradiction.
  - intros H1 H2. apply String.eqb_neq in H1, H2. now rewrite H1, H2.
Qed.

Lemma init_accepts_two_provider_names_witness :
  let env := Startup.mkEnvironment (Some "Anthropic") None true true None in
  (Startup.lower "Anthropic" <> "openai" /\
   Startup.lower "Anthropic" <> "huggingface")
  /\ Startup.init env
     = inl (Startup.ConfigValueError "Unsupported LLM provider: anthropic").
Proof.
  intros env.
  assert (H1 : Startup.lower "Anthropic" <> "openai") by discriminate.
  assert (H2 : Startup.lower "Anthropic" <> "huggingface") by discriminate.
  split; [split; [exact H1|exact H2]|].
  exact (proj2 (init_accepts_two_provider_names env) H1 H2).
Defined.

(* ================================================================== *)
(** ** Request Gateway: answers of [POST /process] *)

Lemma text_request_accepts_nonempty (text : string) :
  text <> "" -> Main.TextRequest text = Some text.
Proof.
  intros H. unfold Main.TextRequest, len_str.
  destruct text as [|c s]; [contradiction|].
  replace (1 <=? Z.of_nat (String.length (String c s))) with true;
    [reflexivity|].
  symmetry. apply Z.leb_le. simpl String.length. lia.
Qed.

Lemma post_process_success
    (p : LLMService.provider) (b : LLMService.backend)
    (json_loads : string -> option value) (str_exn : exn -> string)
    (uuid : string) (now : datetime) (text task : string)
    (st : Storage.store) (v : value) :
  text <> "" ->
  Main.task_in task Main.valid_tasks = true ->
  Main.llm_process_text p b json_loads text task = Ok v ->
  Main.post_process p b json_loads str_exn uuid now text task st
  = (Main.Http200 (Storage.mkRecord uuid text v task now),
     snd (Storage.save_result uuid now st text v task)).
Proof.
  intros Ht Hk Hv. unfold Main.post_process.
  rewrite (text_request_accepts_nonempty Ht).
  unfold Main.process_text, Main.try_except, Main.bindM, Main.lift, Main.ret,
    Main.storage_save_result.
  rewrite Hk. simpl. rewrite Hv. reflexivity.
Qed.

(** X20: [POST /process] answers with the saved record, with the validation
    error, or with status 500: the status 400 raised for an invalid task
    inside the [try] block is caught by its [except Exception] clause and
    never reaches the client. *)
Theorem process_endpoint_status_codes :
  forall (p : LLMService.provider) (b : LLMService.backend)
         (json_loads : string -> option value) (str_exn : exn -> string)
         (uuid : string) (now : datetime) (text task : string)
         (st : Storage.store),
    match fst (Main.post_process p b json_loads str_exn uuid now text task st)
    with
    | Main.Http200 _ => True
    | Main.HttpValidationError => True
    | Main.HttpError status_code _ => status_code = 500
    end.
Proof.
  intros. unfold Main.post_process.
  destruct (Main.TextRequest text); [|exact I].
  unfold Main.process_text, Main.try_except, Main.bindM, Main.lift, Main.ret,
    Main.storage_save_result.
  destruct (Main.task_in task Main.valid_tasks); simpl; [|reflexivity].
  destruct (Main.llm_process_text p b json_loads s task); simpl;
    [exact I|reflexivity].
Qed.

(** X21: A request with a task name outside summarize, entities and sentiment
    is answered with status 500, not 400: the detail is the text of the
    400 exception behind the prefix of the [except] clause, the provider
    is not asked and the store is left as it is. *)
Theorem invalid_task_answered_with_500 :
  forall (p : LLMService.provider) (b : LLMService.backend)
         (json_loads : string -> option value) (str_exn : exn -> string)
         (uuid : string) (now : datetime) (text task : string)
         (st : Storage.store),
    text <> "" ->
    ~ In task Main.valid_tasks ->
    Main.post_process p b json_loads str_exn uuid now text task st
    = (Main.HttpError 500
         ("Error processing text: "
          ++ str_exn (HTTPException 400
                        ("Invalid task: " ++ task
                         ++ ". Must be one of: summarize, entities, sentiment"))),
       st).
Proof.
  intros p b jl str_exn uuid now text task st Ht Hk.
  unfold Main.post_process. rewrite (text_request_accepts_nonempty Ht).
  unfold Main.process_text, Main.try_except, Main.bindM, Main.lift, Main.ret.
  replace (Main.task_in task Main.valid_tasks) with false; [reflexivity|].
  symmetry. unfold Main.task_in, Main.valid_tasks. simpl.
  rewrite !orb_false_iff, !String.eqb_neq. simpl in Hk. intuition.
Qed.

Lemma invalid_task_answered_with_500_witness :
  ("hello" <> "" /\ ~ In "translate" Main.valid_tasks) /\
  Main.post_process LLMService.OpenAI Double.failing_backend (fun _ => None)
    (fun _ => "400: Invalid task") "a" 1 "hello" "translate" []
  = (Main.HttpError 500 "Error processing text: 400: Invalid task", []).
Proof.
  assert (H1 : "hello" <> "") by discriminate.
  assert (H2 : ~ In "translate" Main.valid_tasks)
    by (simpl; intuition discriminate).
  split; [split; [exact H1|exact H2]|].
  exact (@invalid_task_answered_with_500 LLMService.OpenAI
           Double.failing_backend (fun _ => None)
           (fun _ => "400: Invalid task") "a" 1 "hello" "translate" [] H1 H2).
Defined.

Lemma handler_success
    (p : LLMService.provider) (b : LLMService.backend)
    (json_loads : string -> option value) (str_exn : exn -> string)
    (uuid : string) (now : datetime) (text task : string)
    (st : Storage.store) (v : value) :
  Main.task_in task Main.valid_tasks = true ->
  Main.llm_process_text p b json_loads text task = Ok v ->
  Main.process_text p b json_loads str_exn uuid now text task st
  = (Ok (Storage.mkRecord uuid text v task now),
     snd (Storage.save_result uuid now st text v task)).
Proof.
  intros Hk Hv.
  unfold Main.process_text, Main.try_except, Main.bindM, Main.lift, Main.ret,
    Main.storage_save_result.
  rewrite Hk. simpl. rewrite Hv. reflexivity.
Qed.

(** X22: When the task is known and the processing of the provider
    returns, the [/process] handler returns the record built from the
    request (the generated id, the text, the result, the task, the
    timestamp), and that record is the one the store then returns for
    this id and lists. *)
Theorem process_handler_saves_what_it_returns :
  forall (p : LLMService.provider) (b : LLMService.backend)
         (json_loads : string -> option value) (str_exn : exn -> string)
         (uuid : string) (now : datetime) (text task : string)
         (st : Storage.store) (v : value),
    In task Main.valid_tasks ->
    Main.llm_process_text p b json_loads text task = Ok v ->
    let answer := Main.process_text p b json_loads str_exn uuid now text task st in
    fst answer = Ok (Storage.mkRecord uuid text v task now)
    /\ Storage.get_result_by_id (snd answer) uuid
       = Some (Storage.mkRecord uuid text v task now)
    /\ In (Storage.mkRecord uuid text v task now)
          (Storage.get_all_results (snd answer)).
Proof.
  intros p b jl str_exn uuid now text task st v Hk Hv answer.
  assert (Hk' : Main.task_in task Main.valid_tasks = true).
  { unfold Main.task_in. apply existsb_exists. exists task.
    split; [exact Hk|apply String.eqb_refl]. }
  unfold answer.
  rewrite (@handler_success p b jl str_exn uuid now text task st v Hk' Hv).
  cbn [fst snd Storage.save_result].
  assert (G : Storage.get_result_by_id
                (dict_set String.eqb uuid (Storage.mkRecord uuid text v task now) st)
                uuid
              = Some (Storage.mkRecord uuid text v task now)).
  { apply dict_get_set_same. exact String.eqb_refl. }
  split; [reflexivity|]. split; [exact G|].
  exact (dict_get_In _ _ _ G).
Qed.

Lemma process_handler_saves_what_it_returns_witness :
  let b := Double.pipeline_backend [] [] [LLMService.mkSent "POSITIVE" (1 # 1)] in
  let v := VDict [("sentiment", VStr "POSITIVE"); ("score", VFloat (1000 # 1000))] in
  (In "sentiment" Main.valid_tasks /\
   Main.llm_process_text LLMService.HuggingFace b (fun _ => None)
     "I love it" "sentiment" = Ok v)
  /\ fst (Main.process_text LLMService.HuggingFace b (fun _ => None)
            (fun _ => "") "a" 7 "I love it" "sentiment" [])
     = Ok (Storage.mkRecord "a" "I love it" v "sentiment" 7).
Proof.
  intros b v.
  assert (H2 : In "sentiment" Main.valid_tasks)
    by (right; right; left; reflexivity).
  assert (H3 : Main.llm_process_text LLMService.HuggingFace b (fun _ => None)
                 "I love it" "sentiment" = Ok v) by reflexivity.
  split; [split; [exact H2|exact H3]|].
  exact (proj1 (@process_handler_saves_what_it_returns LLMService.HuggingFace
                  b (fun _ => None) (fun _ => "") "a" 7 "I love it"
                  "sentiment" [] v H2 H3)).
Defined.

(** X23: A summarize request on a non-empty text of fewer than 30 words is
    answered with the text as its own summary and saved, whatever the
    provider variant and even when the backend cannot be reached. *)
Theorem short_summarize_request_needs_no_backend :
  forall (p : LLMService.provider) (b : LLMService.backend)
         (json_loads : string -> option value) (str_exn : exn -> string)
         (uuid : string) (now : datetime) (text : string)
         (st : Storage.store),
    text <> "" ->
    Measure.word_count text < 30 ->
    let v := VDict [("summary", VStr text);
                    ("note", VStr "Text too short for meaningful summarization")] in
    Main.post_process p b json_loads str_exn uuid now text "summarize" st
    = (Main.Http200 (Storage.mkRecord uuid text v "summarize" now),
       snd (Storage.save_result uuid now st text v "summarize")).
Proof.
  intros p b jl str_exn uuid now text st Ht Hw v.
  apply post_process_success; [exact Ht|reflexivity|].
  unfold Main.llm_process_text, LLMService.process_text,
    LLMService.summarize_text. simpl.
  unfold Measure.word_count in Hw. apply Z.ltb_lt in Hw. rewrite Hw.
  reflexivity.
Qed.

Lemma short_summarize_request_needs_no_backend_witness :
  ("   " <> "" /\ Measure.word_count "   " < 30) /\
  Main.post_process LLMService.OpenAI Double.failing_backend (fun _ => None)
    (fun _ => "") "a" 7 "   " "summarize" []
  = (Main.Http200
       (Storage.mkRecord "a" "   "
          (VDict [("summary", VStr "   ");
                  ("note", VStr "Text too short for meaningful summarization")])
          "summarize" 7),
     [("a",
       Storage.mkRecord "a" "   "
         (VDict [("summary", VStr "   ");
                 ("note", VStr "Text too short for meaningful summarization")])
         "summarize" 7)]).
Proof.
  assert (H1 : "   " <> "") by discriminate.
  assert (H2 : Measure.word_count "   " < 30) by (vm_compute; reflexivity).
  split; [split; [exact H1|exact H2]|].
  exact (@short_summarize_request_needs_no_backend LLMService.OpenAI
           Double.failing_backend (fun _ => None) (fun _ => "") "a" 7 "   " []
           H1 H2).
Defined.

(** X24: With the openai variant, a sentiment request whose chat answer
    is valid JSON but not an object is saved by the [/process] handler as
    it is; from then on [get_sentiment_distribution] raises on that
    store. *)
Theorem non_object_sentiment_answer_breaks_distribution :
  forall (b : LLMService.backend) (json_loads : string -> option value)
         (str_exn : exn -> string) (uuid : string) (now : datetime)
         (text content : string) (st : Storage.store) (v : value),
    b (LLMService.sentiment_request text) = Ok content ->
    json_loads content = Some v ->
    Measure.is_dict v = false ->
    let answer := Main.process_text LLMService.OpenAI b json_loads str_exn
                    uuid now text "sentiment" st in
    fst answer = Ok (Storage.mkRecord uuid text v "sentiment" now)
    /\ Storage.get_result_by_id (snd answer) uuid
       = Some (Storage.mkRecord uuid text v "sentiment" now)
    /\ exists e,
         BusinessLogic.get_sentiment_distribution (snd answer) = Err e /\
         (e = AttributeError \/ e = TypeError).
Proof.
  intros b jl str_exn uuid now text content st v Hb Hj Hd answer.
  assert (Hv : Main.llm_process_text LLMService.OpenAI b jl text "sentiment"
               = Ok v).
  { unfold Main.llm_process_text, LLMService.process_text.
    change (("sentiment" =? "summarize")%string) with false.
    change (("sentiment" =? "entities")%string) with false.
    change (("sentiment" =? "sentiment")%string) with true.
    cbv iota. unfold LLMService.analyze_sentiment.
    erewrite run_call by exact Hb. now rewrite Hj. }
  unfold answer.
  rewrite (@handler_success LLMService.OpenAI b jl str_exn uuid now text
             "sentiment" st v eq_refl Hv).
  cbn [fst snd Storage.save_result].
  assert (G : Storage.get_result_by_id
                (dict_set String.eqb uuid
                   (Storage.mkRecord uuid text v "sentiment" now) st) uuid
              = Some (Storage.mkRecord uuid text v "sentiment" now)).
  { apply dict_get_set_same. exact String.eqb_refl. }
  split; [reflexivity|]. split; [exact G|].
  apply non_dict_record_breaks_distribution
    with (r := Storage.mkRecord uuid text v "sentiment" now).
  - exact (dict_get_In _ _ _ G).
  - reflexivity.
  - exact Hd.
Qed.

Lemma non_object_sentiment_answer_breaks_distribution_witness :
  let b := Double.chat_backend "[]" in
  let jl := Double.json_loads_at "[]" (VList []) in
  (b (LLMService.sentiment_request "so so") = Ok "[]" /\
   jl "[]" = Some (VList []) /\ Measure.is_dict (VList []) = false)
  /\ exists e,
       BusinessLogic.get_sentiment_distribution
         (snd (Main.process_text LLMService.OpenAI b jl (fun _ => "") "a" 7
                 "so so" "sentiment" []))
       = Err e.
Proof.
  intros b jl.
  split; [split; [reflexivity|split; reflexivity]|].
  destruct (proj2 (proj2 (@non_object_sentiment_answer_breaks_distribution b jl
                     (fun _ => "") "a" 7 "so so" "[]" [] (VList [])
                     eq_refl eq_refl eq_refl))) as (e & He & _).
  exists e. exact He.
Defined.
